(** * pdf_compressor: tiered PDF compression with one size-driven escalation

    A shallow embedding of [pdf_compressor/__init__.py].  The program is a
    sequential script around three external collaborators (the ImageMagick
    command, the PIL codec and the img2pdf packer).  Their results are not
    computed by the program, so they are taken from an environment [Env];
    everything the program itself decides (page ranges, file names, the order
    of the calls, which exception is raised with which message, the size
    check and the single escalation) is translated statement by statement.

    Effects are threaded through a state-and-exception monad over a [World]
    holding the files of the run's temporary directory, the file at the
    output path and the trace of the external calls made so far.

    What the environment is assumed to do: it answers the same question in
    the same way within one run (the input path stays readable or
    unreadable, the [magick] executable stays startable or not), the
    creation and the removal of the temporary directory succeed, and so
    does a write to a file that was opened for writing. *)

From Stdlib Require Import ZArith QArith List Ascii String.
From stdpp Require Import base option list list_numbers sorting gmap strings pretty.

#[local] Set Warnings "-clear-no-such-hyp".

Local Open Scope Z_scope.
Local Open Scope string_scope.
Local Open Scope list_scope.

(** ** Python values *)

(** The exception classes the module raises or lets through.  The payload is
    the text of [str(e)].  [LibraryError] stands for every class the module
    has no handler for by name: the errors of PyPDF2, PIL and img2pdf, and
    an [OSError] other than [FileNotFoundError]. *)
Inductive exn : Type :=
  | FileNotFoundError (msg : string)
  | SubprocessError (msg : string)
  | CompressionError (msg : string)
  | LibraryError (msg : string).

(** [range(start, stop)] *)
Definition py_range (start stop : Z) : list Z := seqZ start (stop - start).

(** [os.path.join(a, b)] (posixpath, two arguments) *)
Definition starts_with_sep (s : string) : bool :=
  match s with
  | String c _ => bool_decide (c = "/"%char)
  | EmptyString => false
  end.

Fixpoint ends_with_sep (s : string) : bool :=
  match s with
  | EmptyString => false
  | String c EmptyString => bool_decide (c = "/"%char)
  | String _ s' => ends_with_sep s'
  end.

Definition os_path_join (a b : string) : string :=
  if starts_with_sep b then b
  else if bool_decide (a = "") || ends_with_sep a then a +:+ b
  else a +:+ "/" +:+ b.

(** A [float] argument: the finite values are rationals. *)
Inductive pyfloat : Type :=
  | Finite (q : Q)
  | PosInf
  | NegInf
  | NaN.

(** [x <= y] for a finite [x] (a measured size) and any float [y]. *)
Definition float_le (x : Q) (y : pyfloat) : bool :=
  match y with
  | Finite q => Qle_bool x q
  | PosInf => true
  | NegInf => false
  | NaN => false
  end.

(** [n / (1024 * 1024)] for a byte count [n].  Dividing by a power of two is
    exact in binary floating point for every size below 2^53 bytes, so the
    rational is the float. *)
Definition megabytes (n : N) : Q := inject_Z (Z.of_N n) / inject_Z (1024 * 1024).

(** ** The world *)

(** What a temporary JPEG file went through, most recent encoding first. *)
Inductive encoding : Type :=
  | Rasterized (page dpi quality : Z)
  | Reencoded (quality : Z) (optimize : bool).

Abbreviation image := (list encoding).

(** The document at the output path: the images packed, in order, and the
    length of the byte stream. *)
Record document : Type := Document {
  doc_pages : list (string * image);
  doc_bytes : N
}.

Inductive event : Type :=
  | EvMkdtemp (dir : string)
  | EvCleanup (dir : string)
  | EvMagick (page dpi quality : Z) (output_image : string)
  | EvCompress (image_path : string) (quality : Z) (optimize : bool)
  | EvOpen (path : string)
  | EvConvert (images : list string)
  | EvWrite (path : string)
  | EvGetsize (path : string) (bytes : N).

Record World : Type := mkWorld {
  files : gmap string image;
  output : option document;
  trace : list event
}.

Definition log (e : event) (w : World) : World :=
  mkWorld (files w) (output w) (trace w ++ [e]).

Definition set_files (m : gmap string image) (w : World) : World :=
  mkWorld m (output w) (trace w).

Definition set_output (d : option document) (w : World) : World :=
  mkWorld (files w) d (trace w).

(** ** The monad *)

Inductive outcome (A : Type) : Type :=
  | Ok (a : A)
  | Raise (e : exn).
Arguments Ok {A} a.
Arguments Raise {A} e.

Definition M (A : Type) : Type := World -> outcome A * World.

Definition ret {A} (a : A) : M A := fun w => (Ok a, w).

Definition bind {A B} (m : M A) (k : A -> M B) : M B :=
  fun w => match m w with
           | (Ok a, w') => k a w'
           | (Raise e, w') => (Raise e, w')
           end.

Definition raise {A} (e : exn) : M A := fun w => (Raise e, w).

(** [try: m except <classes selected by handler>] *)
Definition try_except {A} (m : M A) (handler : exn -> option (M A)) : M A :=
  fun w => match m w with
           | (Ok a, w') => (Ok a, w')
           | (Raise e, w') =>
               match handler e with
               | Some h => h w'
               | None => (Raise e, w')
               end
           end.

Definition get : M World := fun w => (Ok w, w).
Definition modify (f : World -> World) : M unit := fun w => (Ok tt, f w).
Definition emit (e : event) : M unit := modify (log e).

Declare Scope py_scope.
Delimit Scope py_scope with py.
Notation "x <~ m ; k" := (bind m (fun x => k))
  (at level 100, m at next level, k at level 200, right associativity) : py_scope.
Notation "m ;; k" := (bind m (fun _ => k))
  (at level 100, k at level 200, right associativity) : py_scope.
Local Open Scope py_scope.

(** [for x in l: acc = body(acc, x)] *)
Fixpoint for_each {A S} (body : S -> A -> M S) (l : list A) (acc : S) : M S :=
  match l with
  | [] => ret acc
  | x :: l' => acc' <~ body acc x; for_each body l' acc'
  end.

(** [emits P m]: whatever [m] does, returning or raising, it only appends
    events to the trace, and every event it appends satisfies [P]. *)
Definition emits {A} (P : event -> Prop) (m : M A) : Prop :=
  forall w r w', m w = (r, w') ->
  exists evs, trace w' = trace w ++ evs /\ Forall P evs.

(** the calls of the rasterization and recompression loops *)
Definition is_raster (e : event) : Prop :=
  match e with
  | EvMagick _ _ _ _ | EvCompress _ _ _ => True
  | _ => False
  end.

(** the calls of one reassembly of [images] into [output_path] *)
Definition is_assembly (output_path : string) (images : list string) (e : event) : Prop :=
  e = EvOpen output_path \/ e = EvConvert images \/ e = EvWrite output_path.

Definition is_measure (e : event) : Prop :=
  match e with
  | EvGetsize _ _ => True
  | _ => False
  end.

(** ** The external collaborators *)

(** Result of [subprocess.run(cmd, check=True, capture_output=True)] for a
    page conversion, once the executable has been started: the tool exits
    with status 0 (and has or has not written the requested file), or with
    another status, which [check=True] turns into a [CalledProcessError], a
    [SubprocessError], whose text is [err]. *)
Inductive magick_result : Type :=
  | Converted (wrote : bool)
  | MagickFailed (err : string).

(** [PdfReader(path)] raises with text [err], or gives a reader whose
    [len(reader.pages)] raises with a text or is a number. *)
Inductive reader_result : Type :=
  | Unreadable (err : string)
  | Opened (pages : string + nat).

(** [Image.open(path)] then [img.save(path, 'JPEG', quality, optimize)].
    [OpenFailed]: the image cannot be opened or decoded, which is found out
    before the path is opened for writing.  [SaveFailed]: the encoder raises
    after the path has been opened for writing, which has emptied it. *)
Inductive codec_result : Type :=
  | Saved
  | OpenFailed (err : string)
  | SaveFailed (err : string).

(** The [OSError] of a failed [open]: [FileNotFoundError], or another
    subclass ([PermissionError], [IsADirectoryError], ...). *)
Inductive os_error : Type :=
  | NoSuchFile (msg : string)
  | OtherOSError (msg : string).

Definition os_exn (e : os_error) : exn :=
  match e with
  | NoSuchFile msg => FileNotFoundError msg
  | OtherOSError msg => LibraryError msg
  end.

Record Env : Type := mkEnv {
  (** [os.path.exists] on a path outside the temporary directory *)
  path_exists : string -> bool;
  (** [subprocess.run(['magick', '--version'], ...)]: [None] when it
      returns, [Some e] when it raises [e] *)
  magick_version : option exn;
  (** [PdfReader(path)] and [len(reader.pages)] *)
  pdf_reader : string -> reader_result;
  (** name given by [tempfile.TemporaryDirectory()] *)
  mkdtemp : string;
  (** the ImageMagick conversion of one page: input, page, dpi, quality *)
  magick_convert : World -> string -> Z -> Z -> Z -> magick_result;
  (** the codec on an existing file: path, quality, optimize *)
  pil_save : World -> string -> Z -> bool -> codec_result;
  (** [img2pdf.convert(images)] on the paths and what each holds ([None]
      for a path that is no file): the text of the packer's exception, or
      the length of the byte stream produced *)
  img2pdf : list (string * option image) -> string + N;
  (** [open(path, 'wb')]: [Some e] when it raises *)
  open_output : string -> option os_error;
  (** [str(e)] of the [FileNotFoundError] for a path that is no file:
      "[Errno 2] No such file or directory: " and [repr(path)] *)
  strerror_missing : string -> string
}.

(** [len(PdfReader(path).pages)] when neither step raises *)
Definition pdf_pages (env : Env) (path : string) : option nat :=
  match pdf_reader env path with
  | Opened (inr n) => Some n
  | _ => None
  end.

(** Starting the [magick] executable.  The probe of [check_dependencies]
    and the page conversions start the same executable: when the probe
    cannot start it, which [subprocess.run] reports by an exception that is
    no [SubprocessError], no conversion can either, and gets the same
    exception. *)
Definition launch_failure (env : Env) : option exn :=
  match magick_version env with
  | Some (SubprocessError _) | None => None
  | Some e => Some e
  end.

(** The keyword arguments of [compress_pdf]. *)
Record Job : Type := mkJob {
  target_size_mb : pyfloat;
  important_pages : Z;
  first_page_quality : Z;
  remaining_quality : Z;
  first_page_dpi : Z;
  remaining_dpi : Z
}.

Definition default_job : Job :=
  mkJob (Finite (45 # 10)) 5 85 25 200 35.

Definition exn_str (e : exn) : string :=
  match e with
  | FileNotFoundError msg | SubprocessError msg
  | CompressionError msg | LibraryError msg => msg
  end.

(** ** The program *)

Section Program.
Context (env : Env).

(** [check_dependencies] (lines 21-32) *)
Definition check_dependencies : M bool :=
  try_except
    (match magick_version env with
     | None => ret true
     | Some e => raise e
     end)
    (fun e => match e with
              | SubprocessError _ | FileNotFoundError _ => Some (ret false)
              | _ => None
              end).

(** the exception of line 47 *)
Definition compress_failure (image_path err : string) : exn :=
  CompressionError ("Failed to compress image " +:+ image_path +:+ ": " +:+ err).

(** [compress_image] (lines 34-47).  A file that holds [[]] holds no
    complete image: a save that fails has opened the path for writing,
    which empties it, and has written part of the data at most. *)
Definition compress_image (image_path : string) (quality : Z) (optimize : bool) : M unit :=
  try_except
    (w <~ get;
     emit (EvCompress image_path quality optimize);;
     match files w !! image_path with
     | None => raise (FileNotFoundError (strerror_missing env image_path))
     | Some img =>
         match pil_save env w image_path quality optimize with
         | Saved =>
             modify (set_files (<[image_path := Reencoded quality optimize :: img]> (files w)))
         | OpenFailed err => raise (LibraryError err)
         | SaveFailed err =>
             modify (set_files (<[image_path := []]> (files w)));;
             raise (LibraryError err)
         end
     end)
    (fun e => Some (raise (compress_failure image_path (exn_str e)))).

(** [reader = PdfReader(input_path)] *)
Definition PdfReader (input_path : string) : M unit :=
  match pdf_reader env input_path with
  | Unreadable err => raise (LibraryError err)
  | Opened _ => ret tt
  end.

(** [len(reader.pages)] for the reader of [input_path] *)
Definition len_reader_pages (input_path : string) : M nat :=
  match pdf_reader env input_path with
  | Unreadable err | Opened (inl err) => raise (LibraryError err)
  | Opened (inr n) => ret n
  end.

(** [subprocess.run(cmd, check=True, capture_output=True)] (lines 79-92) *)
Definition subprocess_run_magick
    (input_path : string) (i dpi quality : Z) (output_image : string) : M unit :=
  w <~ get;
  emit (EvMagick i dpi quality output_image);;
  match launch_failure env with
  | Some e => raise e
  | None =>
      match magick_convert env w input_path i dpi quality with
      | Converted true =>
          modify (set_files (<[output_image := [Rasterized i dpi quality]]> (files w)))
      | Converted false => ret tt
      | MagickFailed err => raise (SubprocessError err)
      end
  end.

(** the world once that call has returned or raised *)
Definition after_magick
    (r : magick_result) (i dpi quality : Z) (p : string) (w : World) : World :=
  let w1 := log (EvMagick i dpi quality p) w in
  match r with
  | Converted true => set_files (<[p := [Rasterized i dpi quality]]> (files w)) w1
  | _ => w1
  end.

(** [os.path.exists] on a file of the temporary directory *)
Definition os_path_exists_tmp (p : string) : M bool :=
  w <~ get; ret (bool_decide (is_Some (files w !! p))).

Definition page_image (output_dir : string) (i : Z) : string :=
  os_path_join output_dir ("page_" +:+ pretty i +:+ ".jpg").

(** the body of the loop of [convert_pdf_to_images] (lines 77-97) *)
Definition convert_page
    (input_path output_dir : string) (dpi quality : Z)
    (images : list string) (i : Z) : M (list string) :=
  let output_image := page_image output_dir i in
  try_except
    (subprocess_run_magick input_path i dpi quality output_image;;
     present <~ os_path_exists_tmp output_image;
     if present then
       compress_image output_image quality true;;
       ret (images ++ [output_image])
     else ret images)
    (fun e => match e with
              | SubprocessError msg =>
                  Some (raise (CompressionError
                                 ("Failed to convert page " +:+ pretty i +:+ ": " +:+ msg)))
              | _ => None
              end).

(** the pages of [l] whose raster file is among the files [final], and
    the calls one page gives rise to when it is or is not among them *)
Definition kept_pages (output_dir : string) (final : gmap string image) (l : list Z) : list Z :=
  filter (fun i => page_image output_dir i ∈ dom final) l.

Definition page_events
    (output_dir : string) (dpi quality : Z) (final : gmap string image) (i : Z) : list event :=
  EvMagick i dpi quality (page_image output_dir i) ::
  (if bool_decide (page_image output_dir i ∈ dom final)
   then [EvCompress (page_image output_dir i) quality true]
   else []).

(** the three ways the processing of page [i] can fail: ImageMagick exits
    with an error, the recompression fails, the executable cannot be
    started *)
Definition page_failure (output_dir : string) (i : Z) (e : exn) : Prop :=
  (exists err, e = CompressionError ("Failed to convert page " +:+ pretty i +:+ ": " +:+ err)) \/
  (exists err, e = CompressionError ("Failed to compress image " +:+ page_image output_dir i
                                     +:+ ": " +:+ err)) \/
  launch_failure env = Some e.

(** [convert_pdf_to_images] (lines 49-99) *)
Definition convert_pdf_to_images
    (input_path output_dir : string) (start_page : Z) (end_page : option Z)
    (dpi quality : Z) : M (list string) :=
  PdfReader input_path;;
  end_page <~ match end_page with
              | None => n <~ len_reader_pages input_path; ret (Z.of_nat n)
              | Some e => ret e
              end;
  for_each (convert_page input_path output_dir dpi quality)
           (py_range start_page end_page) [].

(** the end of the range of a call (lines 72-73): [end_page] when it is
    given, the number of pages when it is [None] and can be read *)
Definition resolved_end (input_path : string) (end_page : option Z) : option Z :=
  match end_page with
  | Some e => Some e
  | None => Z.of_nat <$> pdf_pages env input_path
  end.

(** [with tempfile.TemporaryDirectory() as temp_dir: body]: the directory
    is new, hence empty, and is removed with its files on every exit. *)
Definition enter_tmp (w : World) : World :=
  set_files ∅ (log (EvMkdtemp (mkdtemp env)) w).

Definition leave_tmp (w : World) : World :=
  set_files ∅ (log (EvCleanup (mkdtemp env)) w).

Definition with_TemporaryDirectory {A} (body : string -> M A) : M A :=
  fun w =>
    let '(r, w') := body (mkdtemp env) (enter_tmp w) in
    (r, leave_tmp w').

(** what the packer reads, and the pages it makes of it: one per image,
    in order, each with what its path holds *)
Definition image_contents (m : gmap string image) (images : list string)
    : list (string * option image) :=
  (fun p => (p, m !! p)) <$> images.

Definition packed_pages (m : gmap string image) (images : list string)
    : list (string * image) :=
  (fun p => (p, default [] (m !! p))) <$> images.

(** [img2pdf.convert(images)] *)
Definition img2pdf_convert (images : list string) : M document :=
  w <~ get;
  emit (EvConvert images);;
  match img2pdf env (image_contents (files w) images) with
  | inl err => raise (LibraryError err)
  | inr n => ret (Document (packed_pages (files w) images) n)
  end.

(** [with open(output_path, 'wb') as f: f.write(img2pdf.convert(images))]:
    a successful [open] empties the file before the packer runs. *)
Definition write_pdf (output_path : string) (images : list string) : M unit :=
  emit (EvOpen output_path);;
  match open_output env output_path with
  | Some e => raise (os_exn e)
  | None =>
      modify (set_output (Some (Document [] 0)));;
      data <~ img2pdf_convert images;
      emit (EvWrite output_path);;
      modify (set_output (Some data))
  end.

(** [os.path.getsize(output_path)] *)
Definition os_path_getsize (output_path : string) : M N :=
  w <~ get;
  match output w with
  | Some d => emit (EvGetsize output_path (doc_bytes d));; ret (doc_bytes d)
  | None => raise (FileNotFoundError (strerror_missing env output_path))
  end.

(** the two tiers (lines 136-161), giving [all_images] *)
Definition important_range (job : Job) (total_pages : Z) : Z * Z :=
  (0, Z.min (important_pages job) total_pages).

Definition remaining_range (job : Job) (total_pages : Z) : Z * Z :=
  (important_pages job, total_pages).

(** the page indices the two calls iterate over *)
Definition important_tier (job : Job) (total_pages : Z) : list Z :=
  py_range (fst (important_range job total_pages)) (snd (important_range job total_pages)).

Definition remaining_tier (job : Job) (total_pages : Z) : list Z :=
  py_range (fst (remaining_range job total_pages)) (snd (remaining_range job total_pages)).

Definition tiered_conversion
    (input_path : string) (job : Job) (temp_dir : string) : M (list string) :=
  PdfReader input_path;;
  n <~ len_reader_pages input_path;
  let total_pages := Z.of_nat n in
  first_pages <~ convert_pdf_to_images input_path temp_dir
                   (fst (important_range job total_pages))
                   (Some (snd (important_range job total_pages)))
                   (first_page_dpi job) (first_page_quality job);
  remaining_pages <~ convert_pdf_to_images input_path temp_dir
                       (fst (remaining_range job total_pages))
                       (Some (snd (remaining_range job total_pages)))
                       (remaining_dpi job) (remaining_quality job);
  ret (first_pages ++ remaining_pages).

(** the first pass (lines 136-170): conversion, emptiness check,
    reassembly and measure *)
Definition first_pass
    (input_path output_path : string) (job : Job) (temp_dir : string)
    : M (list string * Q) :=
  all_images <~ tiered_conversion input_path job temp_dir;
  match all_images with
  | [] => raise (CompressionError "No images were created during conversion")
  | _ =>
      write_pdf output_path all_images;;
      bytes <~ os_path_getsize output_path;
      ret (all_images, megabytes bytes)
  end.

(** the body of the loop of the extreme pass (lines 182-184); the name
    computed at line 182 is not used *)
Definition extreme_step (extreme_images : list string) (img_path : string)
    : M (list string) :=
  compress_image img_path 15 true;;
  ret (extreme_images ++ [img_path]).

(** the extreme pass (lines 177-191) *)
Definition extreme_pass
    (output_path : string) (job : Job) (all_images : list string) : M (bool * Q) :=
  extreme_images <~ for_each extreme_step all_images [];
  write_pdf output_path extreme_images;;
  bytes <~ os_path_getsize output_path;
  let final_size := megabytes bytes in
  ret (float_le final_size (target_size_mb job), final_size).

(** the body of the [with] block (lines 136-191) *)
Definition compress_pdf_body
    (input_path output_path : string) (job : Job) (temp_dir : string) : M (bool * Q) :=
  r <~ first_pass input_path output_path job temp_dir;
  let '(all_images, final_size) := r in
  if float_le final_size (target_size_mb job) then ret (true, final_size)
  else extreme_pass output_path job all_images.

(** [compress_pdf] (lines 101-191) *)
Definition compress_pdf (input_path output_path : string) (job : Job) : M (bool * Q) :=
  if negb (path_exists env input_path) then
    raise (FileNotFoundError ("Input file not found: " +:+ input_path))
  else
    deps <~ check_dependencies;
    if negb deps then
      raise (CompressionError "ImageMagick is not installed. Please install it first.")
    else
      with_TemporaryDirectory (compress_pdf_body input_path output_path job).

End Program.

(** ** Sample environments *)

(** a packer whose output shrinks with the quality of the first image *)
Definition sample_packer (pages : list (string * option image)) : string + N :=
  inr (N.of_nat (length pages) *
       match pages with
       | (_, Some (Reencoded q _ :: _)) :: _ => Z.to_N q * 40000
       | _ => 0
       end)%N.

(** the text of a [FileNotFoundError] for a path without quote or
    backslash *)
Definition sample_strerror (path : string) : string :=
  "[Errno 2] No such file or directory: '" +:+ path +:+ "'".

(** [n] pages, an ImageMagick that behaves as [conv] says page by page, a
    codec that never fails *)
Definition sample_env
    (input_exists : bool) (version : option exn) (n : nat) (conv : Z -> magick_result) : Env :=
  mkEnv (fun _ => input_exists) version (fun _ => Opened (inr n)) "/tmp/tmpk3x9"
        (fun _ _ i _ _ => conv i) (fun _ _ _ _ => Saved) sample_packer
        (fun _ => None) sample_strerror.

Definition healthy_env (n : nat) : Env :=
  sample_env true None n (fun _ => Converted true).

Definition fresh_world : World := mkWorld ∅ None [].

(** ImageMagick exits with an error on page 2 *)
Definition failing_env : Env :=
  sample_env true None 4
    (fun i => if (i =? 2)%Z then MagickFailed "exit status 1" else Converted true).

(** ImageMagick returns normally on page 1 without leaving [page_1.jpg] *)
Definition skipping_env : Env :=
  sample_env true None 3 (fun i => Converted (negb (i =? 1)%Z)).

(** a codec that refuses the paths and qualities [bad] selects, a packer
    that may refuse everything, and any outcome for the version probe *)
Definition testing_env
    (version : option exn) (n : nat) (conv : Z -> magick_result)
    (bad : string -> Z -> bool) (packer_works : bool) : Env :=
  mkEnv (fun _ => true) version (fun _ => Opened (inr n)) "/tmp/tmpk3x9"
        (fun _ _ i _ _ => conv i)
        (fun _ p q _ => if bad p q then SaveFailed "cannot write mode P as JPEG" else Saved)
        (fun pages => if packer_works then sample_packer pages
                      else inl "cannot read input image")
        (fun _ => None) sample_strerror.

(** the codec fails at the extreme quality only *)
Definition extreme_failure_env : Env :=
  testing_env None 3 (fun _ => Converted true) (fun _ q => (q =? 15)%Z) true.

(** the codec fails on the file of page 1 *)
Definition codec_failure_env : Env :=
  testing_env None 3 (fun _ => Converted true)
    (fun p _ => String.eqb p "/tmp/tmpk3x9/page_1.jpg") true.

Definition packer_failure_env : Env :=
  testing_env None 2 (fun _ => Converted true) (fun _ _ => false) false.


(** the [magick] executable cannot be started *)
Definition missing_magick_env : Env :=
  sample_env true (Some (FileNotFoundError "[Errno 2] No such file or directory: 'magick'"))
    3 (fun _ => Converted true).

(** the directory of the output path does not exist *)
Definition unwritable_env : Env :=
  mkEnv (fun _ => true) None (fun _ => Opened (inr 2%nat)) "/tmp/tmpk3x9"
        (fun _ _ _ _ _ => Converted true) (fun _ _ _ _ => Saved) sample_packer
        (fun p => Some (NoSuchFile (sample_strerror p))) sample_strerror.

(** a file that opens as a PDF but whose page tree cannot be read *)
Definition broken_pages_env : Env :=
  mkEnv (fun _ => true) None (fun _ => Opened (inl "Invalid page tree")) "/tmp/tmpk3x9"
        (fun _ _ _ _ _ => Converted true) (fun _ _ _ _ => Saved) sample_packer
        (fun _ => None) sample_strerror.
(** ** The command line ([__main__.py]) *)

(** The ImageMagick invocations among some events: page, dpi, quality. *)
Definition magick_calls (evs : list event) : list (Z * Z * Z) :=
  flat_map (fun e => match e with
                     | EvMagick i dpi quality _ => [(i, dpi, quality)]
                     | _ => []
                     end) evs.

(** The settings lines 141-157 give page [i] when [important_pages] is not
    negative: those of the important tier below [important_pages], those of
    the remaining tier from there on. *)
Definition page_settings (job : Job) (i : Z) : Z * Z * Z :=
  if (i <? important_pages job)%Z
  then (i, first_page_dpi job, first_page_quality job)
  else (i, remaining_dpi job, remaining_quality job).

(** neither the creation nor the removal of a temporary directory *)
Definition inside_tmp (e : event) : Prop :=
  match e with
  | EvMkdtemp _ | EvCleanup _ => False
  | _ => True
  end.

(** [keeps_output m]: returning or raising, [m] leaves the file at the
    output path as it is. *)
Definition keeps_output {A} (m : M A) : Prop :=
  forall w r w', m w = (r, w') -> output w' = output w.

Module Main.

(** The namespace [parser.parse_args()] returns (lines 11-59). *)
Record Args : Type := mkArgs {
  input_file : string;
  output_file : string;
  target_size : pyfloat;
  important_pages : Z;
  first_quality : Z;
  remaining_quality : Z;
  first_dpi : Z;
  remaining_dpi : Z
}.

(** How the process ends: its exit status and the lines written to the
    standard error stream.  (Standard output is not modelled.) *)
Record Exit : Type := mkExit {
  status : Z;
  stderr : list string
}.

(** the keyword arguments of the call at lines 62-71 *)
Definition job_of (args : Args) : Job :=
  mkJob (target_size args) (important_pages args)
        (first_quality args) (remaining_quality args)
        (first_dpi args) (remaining_dpi args).

(** [main] from the parsed arguments on (lines 61-86).  [sys.exit(1)] at
    line 76 raises [SystemExit], which is not an [Exception] and so passes
    the three handlers; reaching the end of [main] is exit status 0. *)
Definition main (env : Env) (args : Args) (w : World) : Exit * World :=
  match compress_pdf env (input_file args) (output_file args) (job_of args) w with
  | (Ok (success, final_size), w') =>
      if negb success then (mkExit 1 [], w') else (mkExit 0 [], w')
  | (Raise (FileNotFoundError msg), w') => (mkExit 1 ["Error: " +:+ msg], w')
  | (Raise (CompressionError msg), w') => (mkExit 1 ["Compression Error: " +:+ msg], w')
  | (Raise e, w') => (mkExit 1 ["Unexpected Error: " +:+ exn_str e], w')
  end.

End Main.

(** ** Running the primitives *)

Lemma bind_run {A B} (m : M A) (k : A -> M B) w :
  bind m k w = match m w with
               | (Ok a, w') => k a w'
               | (Raise e, w') => (Raise e, w')
               end.
Proof. reflexivity. Qed.

Lemma bind_Ok_inv {A B} (m : M A) (k : A -> M B) w b w' :
  bind m k w = (Ok b, w') ->
  exists a w1, m w = (Ok a, w1) /\ k a w1 = (Ok b, w').
Proof.
  unfold bind. destruct (m w) as [[a|e] w1]; intros H; [eauto | discriminate].
Qed.

Lemma for_each_app {A S} (body : S -> A -> M S) l1 l2 acc w :
  for_each body (l1 ++ l2) acc w =
  (acc' <~ for_each body l1 acc; for_each body l2 acc') w.
Proof.
  revert acc w. induction l1 as [|x l1 IH]; intros acc w; simpl.
  - reflexivity.
  - rewrite !bind_run. destruct (body acc x w) as [[a|e] w1]; [apply IH | reflexivity].
Qed.

(** *** Python ranges *)

Lemma elem_of_py_range start stop i :
  i ∈ py_range start stop <-> start <= i < stop.
Proof. unfold py_range. rewrite elem_of_seqZ. lia. Qed.

Lemma py_range_empty start stop : stop <= start -> py_range start stop = [].
Proof. intros H. apply seqZ_nil. lia. Qed.

Lemma py_range_cons start stop :
  start < stop -> py_range start stop = start :: py_range (start + 1) stop.
Proof.
  intros H. unfold py_range. rewrite seqZ_cons by lia.
  do 2 f_equal; lia.
Qed.

Lemma py_range_split start mid stop :
  start <= mid <= stop ->
  py_range start stop = py_range start mid ++ py_range mid stop.
Proof.
  intros H. unfold py_range.
  replace (stop - start) with ((mid - start) + (stop - mid)) by lia.
  rewrite seqZ_app by lia. do 2 f_equal; lia.
Qed.

Lemma NoDup_py_range start stop : NoDup (py_range start stop).
Proof. apply NoDup_seqZ. Qed.

Lemma py_range_sorted start stop : StronglySorted Z.lt (py_range start stop).
Proof.
  unfold py_range. generalize (stop - start). intros len.
  destruct (decide (len <= 0)) as [Hle|Hgt].
  { rewrite seqZ_nil by lia. constructor. }
  rewrite <- (Z2Nat.id len) by lia. generalize (Z.to_nat len). clear.
  intros n. revert start. induction n as [|n IH]; intros start.
  - rewrite seqZ_nil by lia. constructor.
  - rewrite seqZ_cons by lia. constructor.
    + replace (Z.pred (Z.of_nat (S n))) with (Z.of_nat n) by lia. apply IH.
    + apply Forall_forall. intros j Hj. apply elem_of_seqZ in Hj. lia.
Qed.

(** *** File names *)

Lemma length_append (s t : string) :
  String.length (s +:+ t) = (String.length s + String.length t)%nat.
Proof. induction s as [|a s IH]; simpl; [reflexivity | by rewrite IH]. Qed.

Lemma append_inj_r (t s1 s2 : string) : s1 +:+ t = s2 +:+ t -> s1 = s2.
Proof.
  revert s2. induction s1 as [|a s1 IH]; intros [|b s2] H; simpl in *.
  - reflexivity.
  - apply (f_equal String.length) in H.
    rewrite !length_append in H. simpl in H. lia.
  - apply (f_equal String.length) in H.
    rewrite !length_append in H. simpl in H. lia.
  - change (String a (s1 +:+ t) = String b (s2 +:+ t)) in H.
    injection H as -> H. f_equal. by apply IH.
Qed.

Lemma page_image_inj dir : Inj (=) (=) (page_image dir).
Proof.
  intros i j. unfold page_image, os_path_join.
  change (starts_with_sep ("page_" +:+ pretty i +:+ ".jpg")) with false.
  change (starts_with_sep ("page_" +:+ pretty j +:+ ".jpg")) with false.
  cbv iota.
  destruct (bool_decide (dir = "") || ends_with_sep dir); intros H.
  - apply String.app_inj, String.app_inj, append_inj_r in H.
    by apply (inj pretty).
  - apply String.app_inj, String.app_inj, String.app_inj, append_inj_r in H.
    by apply (inj pretty).
Qed.

(** *** Run equations of the leaf operations *)

Section Runs.
Context (env : Env).

Lemma check_dependencies_world w : snd (check_dependencies env w) = w.
Proof.
  unfold check_dependencies, try_except.
  destruct (magick_version env) as [[]|]; reflexivity.
Qed.

Lemma check_dependencies_true w :
  fst (check_dependencies env w) = Ok true -> magick_version env = None.
Proof.
  unfold check_dependencies, try_except.
  by destruct (magick_version env) as [[]|].
Qed.

Lemma launch_failure_class e :
  launch_failure env = Some e -> forall msg, e <> SubprocessError msg.
Proof.
  unfold launch_failure. destruct (magick_version env) as [[]|]; intros [= <-]; done.
Qed.

Lemma launch_after_probe w :
  fst (check_dependencies env w) = Ok true -> launch_failure env = None.
Proof.
  intros H. apply check_dependencies_true in H. unfold launch_failure. by rewrite H.
Qed.

Lemma compress_image_run image_path quality optimize w :
  compress_image env image_path quality optimize w =
  let w1 := log (EvCompress image_path quality optimize) w in
  match files w !! image_path with
  | None => (Raise (compress_failure image_path (strerror_missing env image_path)), w1)
  | Some img =>
      match pil_save env w image_path quality optimize with
      | Saved =>
          (Ok tt, set_files (<[image_path := Reencoded quality optimize :: img]> (files w)) w1)
      | OpenFailed err => (Raise (compress_failure image_path err), w1)
      | SaveFailed err =>
          (Raise (compress_failure image_path err),
           set_files (<[image_path := []]> (files w)) w1)
      end
  end.
Proof.
  unfold compress_image, try_except, bind, get, emit, modify, raise. simpl.
  destruct (files w !! image_path) as [img|]; [|reflexivity].
  destruct (pil_save env w image_path quality optimize); reflexivity.
Qed.

Lemma convert_page_run input_path output_dir dpi quality images i w :
  convert_page env input_path output_dir dpi quality images i w =
  let p := page_image output_dir i in
  match launch_failure env with
  | Some e => (Raise e, log (EvMagick i dpi quality p) w)
  | None =>
      let r := magick_convert env w input_path i dpi quality in
      let w2 := after_magick r i dpi quality p w in
      match r with
      | MagickFailed err =>
          (Raise (CompressionError ("Failed to convert page " +:+ pretty i +:+ ": " +:+ err)),
           w2)
      | Converted _ =>
          match files w2 !! p with
          | None => (Ok images, w2)
          | Some img => (compress_image env p quality true;; ret (images ++ [p])) w2
          end
      end
  end.
Proof.
  unfold convert_page, try_except. rewrite bind_run.
  unfold subprocess_run_magick at 1.
  unfold bind at 1, get at 1, emit, modify. simpl.
  pose proof (launch_failure_class) as Hclass.
  destruct (launch_failure env) as [e|].
  { simpl. specialize (Hclass e eq_refl). destruct e; try reflexivity.
    by destruct (Hclass msg). }
  clear Hclass.
  destruct (magick_convert env w input_path i dpi quality) as [[|]|err];
    simpl; try reflexivity.
  - unfold bind at 1, os_path_exists_tmp, bind at 1, get, ret. simpl.
    rewrite lookup_insert_eq. rewrite bool_decide_eq_true_2 by eauto.
    rewrite !bind_run, compress_image_run. simpl. rewrite lookup_insert_eq.
    destruct (pil_save env _ _ _ _); reflexivity.
  - unfold bind at 1, os_path_exists_tmp, bind at 1, get, ret. simpl.
    destruct (files w !! page_image output_dir i) as [img|] eqn:E.
    + rewrite bool_decide_eq_true_2 by eauto.
      rewrite !bind_run, compress_image_run. cbn [files log]. rewrite E.
      destruct (pil_save env _ _ _ _); reflexivity.
    + rewrite bool_decide_eq_false_2; [reflexivity|]. by intros [? ?].
Qed.
End Runs.
(** *** The rasterization loop *)

Section Conversion.
Context (env : Env) (input_path output_dir : string) (dpi quality : Z).

Lemma convert_page_Ok images i w images' w' :
  convert_page env input_path output_dir dpi quality images i w = (Ok images', w') ->
  let p := page_image output_dir i in
  output w' = output w /\
  trace w' = trace w ++ page_events output_dir dpi quality (files w') i /\
  images' = images ++ (if bool_decide (p ∈ dom (files w')) then [p] else []) /\
  dom (files w') = dom (files w) ∪ (if bool_decide (p ∈ dom (files w')) then {[p]} else ∅) /\
  (forall p', p' <> p -> files w' !! p' = files w !! p') /\
  (p ∈ dom (files w') ->
   exists img, files w' !! p = Some (Reencoded quality true :: img) /\
               (img = [Rasterized i dpi quality] \/ files w !! p = Some img)).
Proof.
  rewrite convert_page_run. cbv zeta. unfold page_events.
  set (p := page_image output_dir i).
  destruct (launch_failure env); [discriminate|].
  destruct (magick_convert env w input_path i dpi quality) as [wrote|err];
    [|discriminate].
  set (w2 := after_magick _ _ _ _ _ _).
  assert (Hdom2 : dom (files w2) = dom (files w) ∪ (if wrote then {[p]} else ∅)).
  { subst w2. unfold after_magick. destruct wrote; simpl.
    - rewrite dom_insert_L. set_solver.
    - set_solver. }
  assert (Hout2 : output w2 = output w) by (subst w2; by destruct wrote).
  assert (Hoth2 : forall p', p' <> p -> files w2 !! p' = files w !! p').
  { intros p' Hne. subst w2. unfold after_magick. destruct wrote; simpl; [|done].
    by rewrite lookup_insert_ne. }
  assert (Hown2 : forall img, files w2 !! p = Some img ->
            img = [Rasterized i dpi quality] \/ files w !! p = Some img).
  { intros img. subst w2. unfold after_magick. destruct wrote; simpl; [|auto].
    rewrite lookup_insert_eq. intros [= <-]. auto. }
  assert (Htr2 : trace w2 = trace w ++ [EvMagick i dpi quality p])
    by (subst w2; by destruct wrote).
  destruct (files w2 !! p) as [img|] eqn:E.
  - rewrite bind_run, compress_image_run. cbv zeta. rewrite E.
    destruct (pil_save env w2 p quality true); try discriminate.
    intros [= <- <-]. simpl.
    rewrite dom_insert_L.
    assert (p ∈ dom (files w2)) by (apply elem_of_dom; eauto).
    rewrite !bool_decide_eq_true_2 by set_solver.
    rewrite Htr2, <- app_assoc. repeat split; auto.
    + rewrite Hdom2. destruct wrote; set_solver.
    + intros p' Hne. rewrite lookup_insert_ne by done. by apply Hoth2.
    + intros _. exists img. rewrite lookup_insert_eq. auto.
  - intros [= <- <-].
    assert (p ∉ dom (files w2)) by (by apply not_elem_of_dom).
    rewrite !bool_decide_eq_false_2 by done.
    rewrite app_nil_r. repeat split; auto.
    + rewrite Hdom2. destruct wrote; set_solver.
    + intros Hin. contradiction.
Qed.

Lemma convert_loop_Ok l :
  NoDup l -> forall acc w images w',
  for_each (convert_page env input_path output_dir dpi quality) l acc w = (Ok images, w') ->
  output w' = output w /\
  trace w' = trace w ++ flat_map (page_events output_dir dpi quality (files w')) l /\
  images = acc ++ (page_image output_dir <$> kept_pages output_dir (files w') l) /\
  dom (files w') =
    dom (files w) ∪ list_to_set (page_image output_dir <$> kept_pages output_dir (files w') l) /\
  (forall p', (forall j, j ∈ l -> p' <> page_image output_dir j) ->
              files w' !! p' = files w !! p') /\
  (forall j, j ∈ kept_pages output_dir (files w') l ->
   exists img, files w' !! page_image output_dir j = Some (Reencoded quality true :: img) /\
               (img = [Rasterized j dpi quality] \/
                files w !! page_image output_dir j = Some img)).
Proof.
  induction 1 as [|i l Hi Hnd IH]; intros acc w images w' Hrun.
  - injection Hrun as <- <-. simpl. rewrite !app_nil_r.
    repeat split; auto; [set_solver|].
    unfold kept_pages. simpl. intros j Hj. by apply elem_of_nil in Hj.
  - simpl in Hrun. apply bind_Ok_inv in Hrun as (acc1 & w1 & Hstep & Hrest).
    apply convert_page_Ok in Hstep as (Ho1 & Ht1 & Ha1 & Hd1 & Hoth1 & Hown1).
    apply IH in Hrest as (Ho & Ht & Ha & Hd & Hoth & Hown). clear IH.
    set (p := page_image output_dir i) in *.
    assert (Hfresh : p ∉ (list_to_set (page_image output_dir <$>
               kept_pages output_dir (files w') l) : gset string)).
    { rewrite elem_of_list_to_set, list_elem_of_fmap.
      intros (j & Hj & Hin). apply page_image_inj in Hj as <-.
      unfold kept_pages in Hin. apply list_elem_of_filter in Hin as [_ Hin].
      contradiction. }
    assert (Hiff : p ∈ dom (files w') <-> p ∈ dom (files w1)).
    { rewrite Hd. set_solver. }
    assert (Hb : bool_decide (p ∈ dom (files w1)) = bool_decide (p ∈ dom (files w')))
      by (by apply bool_decide_ext).
    rewrite Hb in *.
    assert (Hev : page_events output_dir dpi quality (files w1) i =
                  page_events output_dir dpi quality (files w') i).
    { unfold page_events. fold p. by rewrite Hb. }
    rewrite Hev in Ht1.
    assert (Hk : kept_pages output_dir (files w') (i :: l) =
                 if decide (p ∈ dom (files w'))
                 then i :: kept_pages output_dir (files w') l
                 else kept_pages output_dir (files w') l).
    { unfold kept_pages. rewrite filter_cons. reflexivity. }
    rewrite Hk. clear Hk.
    split; [congruence|]. split.
    { simpl. rewrite Ht, Ht1, <- app_assoc. reflexivity. }
    assert (Hkeep : files w' !! p = files w1 !! p).
    { apply Hoth. intros j Hj Heq. apply page_image_inj in Heq as <-. contradiction. }
    assert (Hothers : forall p', (forall j, j ∈ i :: l -> p' <> page_image output_dir j) ->
              files w' !! p' = files w !! p').
    { intros p' Hp'. rewrite Hoth, Hoth1; [done|..].
      - apply Hp'. left.
      - intros j Hj. apply Hp'. by right. }
    assert (Htail : forall j, j ∈ kept_pages output_dir (files w') l ->
              exists img, files w' !! page_image output_dir j
                          = Some (Reencoded quality true :: img) /\
                (img = [Rasterized j dpi quality] \/
                 files w !! page_image output_dir j = Some img)).
    { intros j Hj. destruct (Hown j Hj) as (img & Hl & Himg).
      exists img. split; [done|]. destruct Himg as [->|Himg]; [by left|right].
      rewrite <- Hoth1; [done|]. intros Heq. apply page_image_inj in Heq as ->.
      apply list_elem_of_filter in Hj as [_ Hj]. contradiction. }
    destruct (decide (p ∈ dom (files w'))) as [Hin|Hnin].
    + rewrite bool_decide_eq_true_2 in Ha1, Hd1 by done. repeat split.
      * rewrite Ha, Ha1, <- app_assoc. reflexivity.
      * etrans; [exact Hd|]. rewrite Hd1, fmap_cons, list_to_set_cons.
        fold p. set_solver.
      * exact Hothers.
      * intros j Hj. apply elem_of_cons in Hj as [->|Hj]; [|by apply Htail].
        fold p. rewrite Hkeep. apply Hown1. by apply Hiff.
    + rewrite bool_decide_eq_false_2 in Ha1, Hd1 by done. repeat split.
      * rewrite Ha, Ha1, app_nil_r. reflexivity.
      * etrans; [exact Hd|]. rewrite Hd1. set_solver.
      * exact Hothers.
      * exact Htail.
Qed.
End Conversion.

(** *** Reassembly, measure and the extreme loop *)

Section Assembly.
Context (env : Env).

Lemma write_pdf_run output_path images w :
  write_pdf env output_path images w =
  let w0 := log (EvOpen output_path) w in
  match open_output env output_path with
  | Some e => (Raise (os_exn e), w0)
  | None =>
      let w1 := set_output (Some (Document [] 0)) w0 in
      let w2 := log (EvConvert images) w1 in
      match img2pdf env (image_contents (files w) images) with
      | inl err => (Raise (LibraryError err), w2)
      | inr n =>
          (Ok tt, set_output (Some (Document (packed_pages (files w) images) n))
                             (log (EvWrite output_path) w2))
      end
  end.
Proof.
  unfold write_pdf. rewrite bind_run. unfold emit at 1, modify at 1.
  destruct (open_output env output_path); [reflexivity|].
  unfold img2pdf_convert, bind, emit, modify, get, raise, ret.
  cbn [files log set_output].
  destruct (img2pdf env _); reflexivity.
Qed.

Lemma os_path_getsize_run output_path w :
  os_path_getsize env output_path w =
  match output w with
  | Some d => (Ok (doc_bytes d), log (EvGetsize output_path (doc_bytes d)) w)
  | None => (Raise (FileNotFoundError (strerror_missing env output_path)), w)
  end.
Proof.
  unfold os_path_getsize, bind, get. destruct (output w); reflexivity.
Qed.

Lemma packed_pages_fst (m : gmap string image) images :
  (packed_pages m images).*1 = images.
Proof.
  unfold packed_pages. rewrite <- list_fmap_compose.
  induction images as [|p images IH]; [reflexivity|].
  rewrite fmap_cons. simpl. by f_equal.
Qed.

(** reassembly followed by the measure, when both return *)
Lemma assemble_measure_Ok output_path images w w1 bytes w2 :
  write_pdf env output_path images w = (Ok tt, w1) ->
  os_path_getsize env output_path w1 = (Ok bytes, w2) ->
  exists pages,
    pages.*1 = images /\
    files w2 = files w /\
    output w2 = Some (Document pages bytes) /\
    trace w2 = trace w ++ [EvOpen output_path; EvConvert images;
                           EvWrite output_path; EvGetsize output_path bytes].
Proof.
  rewrite write_pdf_run. cbv zeta.
  destruct (open_output env output_path); [discriminate|].
  destruct (img2pdf env _) as [err|n]; [discriminate|].
  intros [= <-]. rewrite os_path_getsize_run. simpl. intros [= <- <-].
  exists (packed_pages (files w) images). simpl. rewrite <- !app_assoc.
  split_and!; try done. apply packed_pages_fst.
Qed.

Lemma extreme_step_Ok acc p w acc' w' :
  extreme_step env acc p w = (Ok acc', w') ->
  exists img,
    files w !! p = Some img /\
    acc' = acc ++ [p] /\
    w' = set_files (<[p := Reencoded 15 true :: img]> (files w))
                   (log (EvCompress p 15 true) w).
Proof.
  unfold extreme_step. rewrite bind_run, compress_image_run. cbv zeta.
  destruct (files w !! p) as [img|]; [|discriminate].
  destruct (pil_save env w p 15 true); try discriminate.
  intros [= <- <-]. eauto.
Qed.

Lemma extreme_loop_Ok l : forall acc w r w',
  for_each (extreme_step env) l acc w = (Ok r, w') ->
  r = acc ++ l /\
  trace w' = trace w ++ ((fun p => EvCompress p 15 true) <$> l) /\
  output w' = output w /\
  dom (files w') = dom (files w) /\
  (forall p, p ∈ l -> exists img, files w' !! p = Some (Reencoded 15 true :: img)) /\
  (forall p, p ∉ l -> files w' !! p = files w !! p).
Proof.
  induction l as [|x l IH]; intros acc w r w' Hrun.
  - injection Hrun as <- <-. rewrite !app_nil_r. repeat split; auto.
    intros p Hp. by apply elem_of_nil in Hp.
  - simpl in Hrun. apply bind_Ok_inv in Hrun as (acc1 & w1 & Hstep & Hrest).
    apply extreme_step_Ok in Hstep as (img & Hx & -> & ->).
    apply IH in Hrest as (-> & Ht & Ho & Hd & Hin & Hout). clear IH.
    simpl in *. repeat split.
    + by rewrite <- app_assoc.
    + rewrite Ht, <- app_assoc. reflexivity.
    + exact Ho.
    + rewrite Hd, dom_insert_L. apply elem_of_dom_2 in Hx. set_solver.
    + intros p Hp. destruct (decide (p ∈ l)) as [Hl|Hl]; [by apply Hin|].
      apply elem_of_cons in Hp as [->|Hp]; [|contradiction].
      rewrite Hout by done. rewrite lookup_insert_eq. eauto.
    + intros p Hp. apply not_elem_of_cons in Hp as [Hne Hp].
      rewrite Hout by done. by rewrite lookup_insert_ne.
Qed.
End Assembly.

(** *** The two tiers *)

Lemma tiers_disjoint job total_pages i :
  i ∈ important_tier job total_pages -> i ∉ remaining_tier job total_pages.
Proof.
  unfold important_tier, remaining_tier, important_range, remaining_range. simpl.
  rewrite !elem_of_py_range. lia.
Qed.

Lemma kept_pages_ext output_dir (f1 f2 : gmap string image) l :
  (forall i, i ∈ l -> page_image output_dir i ∈ dom f1 <-> page_image output_dir i ∈ dom f2) ->
  kept_pages output_dir f1 l = kept_pages output_dir f2 l.
Proof.
  intros H. unfold kept_pages. induction l as [|i l IH]; [reflexivity|].
  rewrite !filter_cons. rewrite IH by (intros j Hj; apply H; by right).
  destruct (decide (page_image output_dir i ∈ dom f1)) as [H1|H1];
    destruct (decide (page_image output_dir i ∈ dom f2)) as [H2|H2];
    try reflexivity; exfalso; apply (H i) in H1 || apply (H i) in H2;
    try contradiction; by left.
Qed.

Lemma page_events_ext output_dir dpi quality (f1 f2 : gmap string image) l :
  (forall i, i ∈ l -> page_image output_dir i ∈ dom f1 <-> page_image output_dir i ∈ dom f2) ->
  flat_map (page_events output_dir dpi quality f1) l =
  flat_map (page_events output_dir dpi quality f2) l.
Proof.
  intros H. induction l as [|i l IH]; [reflexivity|]. simpl.
  rewrite IH by (intros j Hj; apply H; by right).
  assert (Hi : bool_decide (page_image output_dir i ∈ dom f1) =
               bool_decide (page_image output_dir i ∈ dom f2))
    by (apply bool_decide_ext, H; by left).
  unfold page_events. by rewrite Hi.
Qed.

Lemma kept_pages_sublist output_dir f l : kept_pages output_dir f l `sublist_of` l.
Proof. apply sublist_filter. Qed.

Lemma StronglySorted_sublist {A} (R : relation A) (l1 l2 : list A) :
  l1 `sublist_of` l2 -> StronglySorted R l2 -> StronglySorted R l1.
Proof.
  induction 1 as [|x l1 l2 Hsub IH|x l1 l2 Hsub IH];
    rewrite ?StronglySorted_cons; [done|..].
  - intros [Hall Hs]. split; [|by apply IH].
    rewrite Forall_forall in Hall |- *. intros y Hy. apply Hall.
    by eapply elem_of_sublist.
  - intros [_ Hs]. by apply IH.
Qed.

Lemma tiers_sorted job total_pages :
  StronglySorted Z.lt (important_tier job total_pages ++ remaining_tier job total_pages).
Proof.
  apply StronglySorted_app. repeat split; try apply py_range_sorted.
  intros i j. unfold important_tier, remaining_tier, important_range, remaining_range.
  simpl. rewrite !elem_of_py_range. lia.
Qed.

Section Pipeline.
Context (env : Env) (input_path : string).

Lemma convert_pdf_to_images_cases output_dir start_page end_page dpi quality w :
  convert_pdf_to_images env input_path output_dir start_page end_page dpi quality w =
  match pdf_reader env input_path with
  | Unreadable err => (Raise (LibraryError err), w)
  | Opened pages =>
      match end_page, pages with
      | Some e, _ =>
          for_each (convert_page env input_path output_dir dpi quality)
                   (py_range start_page e) [] w
      | None, inr n =>
          for_each (convert_page env input_path output_dir dpi quality)
                   (py_range start_page (Z.of_nat n)) [] w
      | None, inl err => (Raise (LibraryError err), w)
      end
  end.
Proof.
  unfold convert_pdf_to_images, PdfReader, len_reader_pages. rewrite bind_run.
  destruct (pdf_reader env input_path) as [err|[err|n]]; try reflexivity;
    destruct end_page; reflexivity.
Qed.

Lemma convert_pdf_to_images_run output_dir start_page end_page dpi quality (n : nat) w :
  pdf_pages env input_path = Some n ->
  convert_pdf_to_images env input_path output_dir start_page end_page dpi quality w =
  for_each (convert_page env input_path output_dir dpi quality)
           (py_range start_page (default (Z.of_nat n) end_page)) [] w.
Proof.
  unfold pdf_pages. rewrite convert_pdf_to_images_cases.
  destruct (pdf_reader env input_path) as [err|[err|m]]; try discriminate.
  intros [= ->]. by destruct end_page.
Qed.

(** a call that gets to its loop: the range it iterates over *)
Lemma convert_pdf_to_images_range output_dir start_page end_page dpi quality w r w' :
  convert_pdf_to_images env input_path output_dir start_page end_page dpi quality w = (r, w') ->
  (exists err, r = Raise (LibraryError err) /\ w' = w /\
               (resolved_end env input_path end_page = None \/
                pdf_reader env input_path = Unreadable err)) \/
  exists stop,
    resolved_end env input_path end_page = Some stop /\
    for_each (convert_page env input_path output_dir dpi quality)
             (py_range start_page stop) [] w = (r, w').
Proof.
  rewrite convert_pdf_to_images_cases. unfold resolved_end, pdf_pages.
  destruct (pdf_reader env input_path) as [err|[err|n]].
  - intros [= <- <-]. left. eauto.
  - destruct end_page as [e|]; [right; eauto|].
    intros [= <- <-]. left. eauto.
  - destruct end_page as [e|]; right; eauto.
Qed.

Lemma tiered_conversion_cases job temp_dir w :
  tiered_conversion env input_path job temp_dir w =
  match pdf_reader env input_path with
  | Unreadable err | Opened (inl err) => (Raise (LibraryError err), w)
  | Opened (inr n) =>
      let total_pages := Z.of_nat n in
      (first_pages <~ convert_pdf_to_images env input_path temp_dir
                        (fst (important_range job total_pages))
                        (Some (snd (important_range job total_pages)))
                        (first_page_dpi job) (first_page_quality job);
       remaining_pages <~ convert_pdf_to_images env input_path temp_dir
                            (fst (remaining_range job total_pages))
                            (Some (snd (remaining_range job total_pages)))
                            (remaining_dpi job) (remaining_quality job);
       ret (first_pages ++ remaining_pages)) w
  end.
Proof.
  unfold tiered_conversion, PdfReader, len_reader_pages. rewrite bind_run.
  destruct (pdf_reader env input_path) as [err|[err|n]]; reflexivity.
Qed.

Lemma tiered_conversion_pages job temp_dir w (n : nat) :
  pdf_pages env input_path = Some n ->
  tiered_conversion env input_path job temp_dir w =
  (first_pages <~ for_each (convert_page env input_path temp_dir
                              (first_page_dpi job) (first_page_quality job))
                    (important_tier job (Z.of_nat n)) [];
   remaining_pages <~ for_each (convert_page env input_path temp_dir
                                  (remaining_dpi job) (remaining_quality job))
                        (remaining_tier job (Z.of_nat n)) [];
   ret (first_pages ++ remaining_pages)) w.
Proof.
  intros Hn. rewrite tiered_conversion_cases. pose proof Hn as Hn'. unfold pdf_pages in Hn'.
  destruct (pdf_reader env input_path) as [err|[err|m]]; try discriminate.
  injection Hn' as ->. cbv zeta. rewrite !(bind_run _ _ w).
  rewrite (convert_pdf_to_images_run _ _ _ _ _ n _ Hn).
  change (py_range _ (default _ (Some _))) with (important_tier job (Z.of_nat n)).
  destruct (for_each _ (important_tier job (Z.of_nat n)) [] w) as [[a|e] w1];
    [|reflexivity].
  rewrite !(bind_run _ _ w1), (convert_pdf_to_images_run _ _ _ _ _ n _ Hn).
  reflexivity.
Qed.

Lemma tiered_conversion_reads job temp_dir w a w' :
  tiered_conversion env input_path job temp_dir w = (Ok a, w') ->
  exists n : nat, pdf_pages env input_path = Some n.
Proof.
  rewrite tiered_conversion_cases. unfold pdf_pages.
  destruct (pdf_reader env input_path) as [err|[err|n]]; try discriminate. eauto.
Qed.

Lemma tiered_conversion_Ok job temp_dir w all_images w' :
  tiered_conversion env input_path job temp_dir w = (Ok all_images, w') ->
  exists n,
    pdf_pages env input_path = Some n /\
    let tier1 := important_tier job (Z.of_nat n) in
    let tier2 := remaining_tier job (Z.of_nat n) in
    let final := files w' in
    all_images = page_image temp_dir <$> kept_pages temp_dir final (tier1 ++ tier2) /\
    output w' = output w /\
    trace w' = trace w
      ++ flat_map (page_events temp_dir (first_page_dpi job) (first_page_quality job) final) tier1
      ++ flat_map (page_events temp_dir (remaining_dpi job) (remaining_quality job) final) tier2 /\
    dom final = dom (files w) ∪ list_to_set all_images /\
    (files w = ∅ ->
     (forall j, j ∈ kept_pages temp_dir final tier1 ->
        final !! page_image temp_dir j =
        Some [Reencoded (first_page_quality job) true;
              Rasterized j (first_page_dpi job) (first_page_quality job)]) /\
     (forall j, j ∈ kept_pages temp_dir final tier2 ->
        final !! page_image temp_dir j =
        Some [Reencoded (remaining_quality job) true;
              Rasterized j (remaining_dpi job) (remaining_quality job)])).
Proof.
  intros Hrun. destruct (tiered_conversion_reads _ _ _ _ _ Hrun) as (n & Hn).
  rewrite (tiered_conversion_pages _ _ _ _ Hn) in Hrun.
  exists n. split; [exact Hn|].
  apply bind_Ok_inv in Hrun as (imgs1 & w1 & H1 & Hrun).
  apply bind_Ok_inv in Hrun as (imgs2 & w2 & H2 & Hrun).
  injection Hrun as <- <-.
  set (tier1 := important_tier job (Z.of_nat n)).
  set (tier2 := remaining_tier job (Z.of_nat n)).
  change (for_each (convert_page env input_path temp_dir (first_page_dpi job)
                      (first_page_quality job)) tier1 [] w = (Ok imgs1, w1)) in H1.
  change (for_each (convert_page env input_path temp_dir (remaining_dpi job)
                      (remaining_quality job)) tier2 [] w1 = (Ok imgs2, w2)) in H2.
  apply convert_loop_Ok in H1 as (Ho1 & Ht1 & Ha1 & Hd1 & Hoth1 & Hown1);
    [|apply NoDup_py_range].
  apply convert_loop_Ok in H2 as (Ho2 & Ht2 & Ha2 & Hd2 & Hoth2 & Hown2);
    [|apply NoDup_py_range].
  rewrite app_nil_l in Ha1, Ha2.
  assert (Hsame : forall i, i ∈ tier1 ->
            files w2 !! page_image temp_dir i = files w1 !! page_image temp_dir i).
  { intros i Hi. apply Hoth2. intros j Hj Heq. apply page_image_inj in Heq as <-.
    by apply tiers_disjoint in Hi. }
  assert (Hiff : forall i, i ∈ tier1 ->
            page_image temp_dir i ∈ dom (files w1) <-> page_image temp_dir i ∈ dom (files w2)).
  { intros i Hi. rewrite !elem_of_dom, Hsame; done. }
  rewrite (kept_pages_ext _ _ _ _ Hiff) in Ha1, Hd1, Hown1.
  rewrite (page_events_ext _ _ _ _ _ _ Hiff) in Ht1.
  cbv zeta. repeat split.
  - unfold kept_pages. rewrite filter_app, fmap_app. by rewrite Ha1, Ha2.
  - congruence.
  - rewrite Ht2, Ht1, <- app_assoc. reflexivity.
  - rewrite Hd2, Hd1, Ha1, Ha2, list_to_set_app_L. set_solver.
  - intros j Hj. destruct (Hown1 j Hj) as (img & Hl & Himg).
    assert (Hj1 : j ∈ tier1) by (by apply list_elem_of_filter in Hj as [_ ?]).
    rewrite Hsame, Hl by done. destruct Himg as [->|Himg]; [done|].
    rewrite H, lookup_empty in Himg. discriminate.
  - intros j Hj. destruct (Hown2 j Hj) as (img & Hl & Himg).
    assert (Hj2 : j ∈ tier2) by (by apply list_elem_of_filter in Hj as [_ ?]).
    rewrite Hl. destruct Himg as [->|Himg]; [done|].
    rewrite Hoth1, H, lookup_empty in Himg; [discriminate|].
    intros i Hi Heq. apply page_image_inj in Heq as <-.
    by apply tiers_disjoint in Hi.
Qed.
End Pipeline.

(** *** What a computation may append to the trace *)

Lemma emits_ret {A} P (a : A) : emits P (ret a).
Proof. intros w r w' [= <- <-]. exists []. by rewrite app_nil_r. Qed.

Lemma emits_raise {A} P e : emits P (@raise A e).
Proof. intros w r w' [= <- <-]. exists []. by rewrite app_nil_r. Qed.

Lemma emits_get P : emits P get.
Proof. intros w r w' [= <- <-]. exists []. by rewrite app_nil_r. Qed.

Lemma emits_emit (P : event -> Prop) e : P e -> emits P (emit e).
Proof. intros He w r w' [= <- <-]. exists [e]. split; [done|]. by constructor. Qed.

Lemma emits_modify P f : (forall w, trace (f w) = trace w) -> emits P (modify f).
Proof. intros Hf w r w' [= <- <-]. exists []. by rewrite app_nil_r, Hf. Qed.

Lemma emits_weaken {A} (P Q : event -> Prop) (m : M A) :
  (forall e, P e -> Q e) -> emits P m -> emits Q m.
Proof.
  intros HPQ Hm w r w' Hrun. destruct (Hm _ _ _ Hrun) as (evs & Ht & Hall).
  exists evs. split; [done|]. eapply Forall_impl; eauto.
Qed.

(** the continuation is only looked at after a normal return of [m] *)
Lemma emits_bind_run {A B} P (m : M A) (k : A -> M B) w r w' :
  bind m k w = (r, w') ->
  emits P m ->
  (forall a w1, m w = (Ok a, w1) -> emits P (k a)) ->
  exists evs, trace w' = trace w ++ evs /\ Forall P evs.
Proof.
  unfold bind. intros Hrun Hm Hk.
  destruct (m w) as [[a|e] w1] eqn:Hmw.
  - destruct (Hm _ _ _ Hmw) as (evs1 & Ht1 & H1).
    destruct (Hk a w1 eq_refl _ _ _ Hrun) as (evs2 & Ht2 & H2).
    exists (evs1 ++ evs2). rewrite Ht2, Ht1, <- app_assoc. split; [done|].
    by apply Forall_app.
  - injection Hrun as <- <-. eauto.
Qed.

Lemma emits_bind {A B} P (m : M A) (k : A -> M B) :
  emits P m -> (forall a, emits P (k a)) -> emits P (bind m k).
Proof. intros Hm Hk w r w' Hrun. eapply emits_bind_run; eauto. Qed.

Lemma emits_try_except {A} P (m : M A) handler :
  emits P m ->
  (forall e h, handler e = Some h -> emits P h) ->
  emits P (try_except m handler).
Proof.
  intros Hm Hh w r w'. unfold try_except.
  destruct (m w) as [[a|e] w1] eqn:Hmw.
  - intros [= <- <-]. eauto.
  - destruct (Hm _ _ _ Hmw) as (evs1 & Ht1 & H1).
    destruct (handler e) as [h|] eqn:He.
    + intros Hrun. destruct (Hh _ _ He _ _ _ Hrun) as (evs2 & Ht2 & H2).
      exists (evs1 ++ evs2). rewrite Ht2, Ht1, <- app_assoc. split; [done|].
      by apply Forall_app.
    + intros [= <- <-]. eauto.
Qed.

Lemma emits_for_each {A S} P (body : S -> A -> M S) l :
  (forall acc x, emits P (body acc x)) -> forall acc, emits P (for_each body l acc).
Proof.
  intros Hbody. induction l as [|x l IH]; intros acc; simpl.
  - apply emits_ret.
  - apply emits_bind; auto.
Qed.

Create HintDb emits.
#[local] Hint Resolve emits_ret emits_raise emits_get emits_emit emits_modify
  emits_bind emits_try_except emits_for_each : emits.

Section Emits.
Context (env : Env).

Lemma emits_compress_image (P : event -> Prop) p q o :
  P (EvCompress p q o) -> emits P (compress_image env p q o).
Proof.
  intros HP. unfold compress_image.
  apply emits_try_except.
  - apply emits_bind; [apply emits_get|]. intros w.
    apply emits_bind; [by apply emits_emit|]. intros _.
    destruct (files w !! p); [|apply emits_raise].
    destruct (pil_save env w p q o); [by apply emits_modify|apply emits_raise|].
    apply emits_bind; [by apply emits_modify|]. intros _. apply emits_raise.
  - intros e h [= <-]. apply emits_raise.
Qed.

Lemma emits_convert_page input_path output_dir dpi quality images i :
  emits is_raster (convert_page env input_path output_dir dpi quality images i).
Proof.
  unfold convert_page. apply emits_try_except.
  - apply emits_bind.
    + unfold subprocess_run_magick.
      apply emits_bind; [apply emits_get|]. intros w.
      apply emits_bind; [by apply emits_emit|]. intros _.
      destruct (launch_failure env); [apply emits_raise|].
      destruct (magick_convert env w input_path i dpi quality) as [[|]|err];
        auto using emits_ret, emits_raise, emits_modify.
    + intros _. apply emits_bind.
      * unfold os_path_exists_tmp. auto with emits.
      * intros [|]; [|apply emits_ret].
        apply emits_bind; [by apply emits_compress_image|].
        intros _. apply emits_ret.
  - intros [] h [= <-]. apply emits_raise.
Qed.

Lemma emits_convert_pdf_to_images input_path output_dir start_page end_page dpi quality :
  emits is_raster
    (convert_pdf_to_images env input_path output_dir start_page end_page dpi quality).
Proof.
  unfold convert_pdf_to_images, PdfReader, len_reader_pages. apply emits_bind.
  - destruct (pdf_reader env input_path); auto with emits.
  - intros _. apply emits_bind.
    + destruct end_page; [apply emits_ret|]. apply emits_bind; [|auto with emits].
      destruct (pdf_reader env input_path) as [?|[?|?]]; auto with emits.
    + intros stop. apply emits_for_each. intros acc i. apply emits_convert_page.
Qed.

Lemma emits_tiered_conversion input_path job temp_dir :
  emits is_raster (tiered_conversion env input_path job temp_dir).
Proof.
  unfold tiered_conversion, PdfReader, len_reader_pages. apply emits_bind.
  - destruct (pdf_reader env input_path); auto with emits.
  - intros _. apply emits_bind.
    + destruct (pdf_reader env input_path) as [?|[?|?]]; auto with emits.
    + intros n. repeat (apply emits_bind; [apply emits_convert_pdf_to_images|]; intros ?).
      apply emits_ret.
Qed.

Lemma emits_write_pdf output_path images :
  emits (is_assembly output_path images) (write_pdf env output_path images).
Proof.
  unfold write_pdf, img2pdf_convert, is_assembly.
  apply emits_bind; [apply emits_emit; auto|]. intros _.
  destruct (open_output env output_path); [apply emits_raise|].
  apply emits_bind; [by apply emits_modify|]. intros _.
  apply emits_bind.
  - apply emits_bind; [apply emits_get|]. intros w.
    apply emits_bind; [apply emits_emit; auto|]. intros _.
    destruct (img2pdf env _); auto with emits.
  - intros d. apply emits_bind; [apply emits_emit; auto|]. intros _.
    by apply emits_modify.
Qed.

Lemma emits_os_path_getsize output_path :
  emits is_measure (os_path_getsize env output_path).
Proof.
  unfold os_path_getsize. apply emits_bind; [apply emits_get|]. intros w.
  destruct (output w); [|apply emits_raise].
  apply emits_bind; [by apply emits_emit|]. intros _. apply emits_ret.
Qed.

Lemma emits_extreme_loop l acc :
  emits is_raster (for_each (extreme_step env) l acc).
Proof.
  apply emits_for_each. intros a p. unfold extreme_step.
  apply emits_bind; [by apply emits_compress_image|]. intros _. apply emits_ret.
Qed.
End Emits.

(** *** The controller *)

Section Controller.
Context (env : Env) (input_path output_path : string) (job : Job).

Lemma compress_pdf_run w :
  compress_pdf env input_path output_path job w =
  if negb (path_exists env input_path) then
    (Raise (FileNotFoundError ("Input file not found: " +:+ input_path)), w)
  else
    match fst (check_dependencies env w) with
    | Ok true =>
        let '(r, w') := compress_pdf_body env input_path output_path job
                          (mkdtemp env) (enter_tmp env w) in
        (r, leave_tmp env w')
    | Ok false =>
        (Raise (CompressionError "ImageMagick is not installed. Please install it first."), w)
    | Raise e => (Raise e, w)
    end.
Proof.
  unfold compress_pdf. destruct (negb (path_exists env input_path)); [reflexivity|].
  rewrite bind_run. pose proof (check_dependencies_world env w) as Hw.
  destruct (check_dependencies env w) as [[[|]|e] w1]; simpl in Hw; subst w1;
    reflexivity.
Qed.

Lemma compress_pdf_Ok w r w' :
  compress_pdf env input_path output_path job w = (Ok r, w') ->
  path_exists env input_path = true /\
  fst (check_dependencies env w) = Ok true /\
  exists w2,
    compress_pdf_body env input_path output_path job (mkdtemp env) (enter_tmp env w)
      = (Ok r, w2) /\
    w' = leave_tmp env w2.
Proof.
  rewrite compress_pdf_run.
  destruct (path_exists env input_path); [|discriminate]. simpl.
  destruct (check_dependencies env w).1 as [[|]|e]; try discriminate.
  destruct (compress_pdf_body _ _ _ _ _ _) as [r2 w2]. intros [= -> <-]. eauto.
Qed.

Lemma first_pass_Ok temp_dir w all_images size w' :
  first_pass env input_path output_path job temp_dir w = (Ok (all_images, size), w') ->
  exists wc pages bytes,
    tiered_conversion env input_path job temp_dir w = (Ok all_images, wc) /\
    all_images <> [] /\
    pages.*1 = all_images /\
    files w' = files wc /\
    output w' = Some (Document pages bytes) /\
    trace w' = trace wc ++ [EvOpen output_path; EvConvert all_images;
                            EvWrite output_path; EvGetsize output_path bytes] /\
    size = megabytes bytes.
Proof.
  unfold first_pass. intros Hrun.
  apply bind_Ok_inv in Hrun as (imgs & wc & Htier & Hrun).
  destruct imgs as [|p imgs]; [discriminate|].
  apply bind_Ok_inv in Hrun as ([] & w1 & Hwrite & Hrun).
  apply bind_Ok_inv in Hrun as (bytes & w2 & Hsize & Hrun).
  injection Hrun as <- <- <-.
  destruct (assemble_measure_Ok _ _ _ _ _ _ _ Hwrite Hsize) as (pages & ? & ? & ? & ?).
  exists wc, pages, bytes. repeat split; auto.
Qed.

Lemma extreme_pass_Ok all_images w s size w' :
  extreme_pass env output_path job all_images w = (Ok (s, size), w') ->
  exists pages bytes,
    pages.*1 = all_images /\
    trace w' = trace w ++ ((fun p => EvCompress p 15 true) <$> all_images)
                 ++ [EvOpen output_path; EvConvert all_images;
                     EvWrite output_path; EvGetsize output_path bytes] /\
    dom (files w') = dom (files w) /\
    (forall p, p ∈ all_images ->
       exists img, files w' !! p = Some (Reencoded 15 true :: img)) /\
    (forall p, p ∉ all_images -> files w' !! p = files w !! p) /\
    output w' = Some (Document pages bytes) /\
    size = megabytes bytes /\
    s = float_le size (target_size_mb job).
Proof.
  unfold extreme_pass. intros Hrun.
  apply bind_Ok_inv in Hrun as (imgs & w1 & Hloop & Hrun).
  apply bind_Ok_inv in Hrun as ([] & w2 & Hwrite & Hrun).
  apply bind_Ok_inv in Hrun as (bytes & w3 & Hsize & Hrun).
  injection Hrun as <- <- <-.
  apply extreme_loop_Ok in Hloop as (-> & Ht & Ho & Hd & Hin & Hout).
  rewrite app_nil_l in *.
  destruct (assemble_measure_Ok _ _ _ _ _ _ _ Hwrite Hsize)
    as (pages & Hp & Hf & Hdoc & Htr).
  exists pages, bytes. rewrite Hf, Htr, Ht, <- app_assoc. repeat split; auto.
Qed.

Lemma compress_pdf_body_Ok temp_dir w r w' :
  compress_pdf_body env input_path output_path job temp_dir w = (Ok r, w') ->
  exists all_images size1 w1,
    first_pass env input_path output_path job temp_dir w = (Ok (all_images, size1), w1) /\
    if float_le size1 (target_size_mb job)
    then r = (true, size1) /\ w' = w1
    else extreme_pass env output_path job all_images w1 = (Ok r, w').
Proof.
  unfold compress_pdf_body. intros Hrun.
  apply bind_Ok_inv in Hrun as ([imgs size1] & w1 & Hfirst & Hrun).
  exists imgs, size1, w1. split; [done|].
  destruct (float_le size1 (target_size_mb job)); [|done].
  by injection Hrun as <- <-.
Qed.
End Controller.

(** *** The ImageMagick invocations of the two tiers *)

Lemma remaining_tier_clamped job total_pages :
  remaining_tier job total_pages
  = py_range (Z.min (important_pages job) total_pages) total_pages.
Proof.
  unfold remaining_tier, remaining_range. simpl.
  destruct (Z.le_gt_cases (important_pages job) total_pages).
  - by rewrite Z.min_l.
  - rewrite Z.min_r by lia. by rewrite !py_range_empty by lia.
Qed.

Lemma magick_calls_app evs1 evs2 :
  magick_calls (evs1 ++ evs2) = magick_calls evs1 ++ magick_calls evs2.
Proof. apply flat_map_app. Qed.

Lemma magick_calls_page_events output_dir dpi quality (f : gmap string image) l :
  magick_calls (flat_map (page_events output_dir dpi quality f) l)
  = (fun i => (i, dpi, quality)) <$> l.
Proof.
  induction l as [|i l IH]; [reflexivity|].
  change (flat_map (page_events output_dir dpi quality f) (i :: l))
    with (page_events output_dir dpi quality f i
          ++ flat_map (page_events output_dir dpi quality f) l).
  rewrite magick_calls_app, IH. unfold page_events.
  by destruct (bool_decide _).
Qed.

Lemma magick_calls_recompressions q o (l : list string) :
  magick_calls ((fun p => EvCompress p q o) <$> l) = [].
Proof. induction l as [|p l IH]; [reflexivity|exact IH]. Qed.

Lemma tiers_settings job total_pages :
  0 <= important_pages job -> 0 <= total_pages ->
  ((fun i => (i, first_page_dpi job, first_page_quality job))
     <$> important_tier job total_pages)
  ++ ((fun i => (i, remaining_dpi job, remaining_quality job))
        <$> remaining_tier job total_pages)
  = page_settings job <$> py_range 0 total_pages.
Proof.
  intros Hip Htp.
  set (m := Z.min (important_pages job) total_pages).
  assert (Hrem : remaining_tier job total_pages = py_range m total_pages).
  { unfold remaining_tier, remaining_range. simpl. subst m.
    destruct (Z.le_gt_cases (important_pages job) total_pages).
    - by rewrite Z.min_l.
    - rewrite Z.min_r by lia. by rewrite !py_range_empty by lia. }
  rewrite Hrem. change (important_tier job total_pages) with (py_range 0 m).
  rewrite (py_range_split 0 m total_pages) by (subst m; lia).
  rewrite fmap_app. f_equal; apply Forall_fmap_ext_1, Forall_forall; intros i Hi;
    apply elem_of_py_range in Hi; unfold page_settings.
  - rewrite (proj2 (Z.ltb_lt _ _)) by (subst m; lia). reflexivity.
  - destruct (Z.ltb_spec i (important_pages job)); [|reflexivity].
    subst m. lia.
Qed.

(** * The claims *)

(** C8 — [compress_pdf] fails fast: when the input path does not exist it
    raises the not-found error, and otherwise, when the probe of the
    rasterizer reports it absent, the missing-dependency error.  In both
    cases the world is returned as it was received: no temporary directory
    or file has been created, the output path has not been written, and no
    external call has been traced. *)
Theorem compress_pdf_fails_fast env input_path output_path job w :
  path_exists env input_path = false \/ fst (check_dependencies env w) = Ok false ->
  compress_pdf env input_path output_path job w =
  (Raise (if path_exists env input_path
          then CompressionError "ImageMagick is not installed. Please install it first."
          else FileNotFoundError ("Input file not found: " +:+ input_path)),
   w).
Proof.
  rewrite compress_pdf_run. intros [Hmissing|Hdeps].
  - by rewrite Hmissing.
  - destruct (path_exists env input_path); [|reflexivity]. simpl.
    by rewrite Hdeps.
Qed.

Lemma compress_pdf_fails_fast_witness :
  compress_pdf (sample_env false None 3 (fun _ => Converted true))
    "in.pdf" "out.pdf" default_job fresh_world
  = (Raise (FileNotFoundError "Input file not found: in.pdf"), fresh_world) /\
  compress_pdf (sample_env true (Some (FileNotFoundError "magick")) 3 (fun _ => Converted true))
    "in.pdf" "out.pdf" default_job fresh_world
  = (Raise (CompressionError "ImageMagick is not installed. Please install it first."),
     fresh_world).
Proof.
  split.
  - apply (compress_pdf_fails_fast (sample_env false None 3 (fun _ => Converted true))).
    left. reflexivity.
  - apply (compress_pdf_fails_fast
             (sample_env true (Some (FileNotFoundError "magick")) 3 (fun _ => Converted true))).
    right. reflexivity.
Defined.

(** C3 — with [important_pages >= 0] and a document of [total_pages]
    pages, the two conversion calls of the first pass run the page loop
    over [0, min(important_pages, total_pages))] with the important tier's
    dpi and quality, then over [min(important_pages, total_pages),
    total_pages)] with the remaining tier's: the second call is made with
    the unclamped [start_page = important_pages], and
    [range(important_pages, total_pages)] has the same elements.  No index
    is in both ranges and together, in this order, they are
    [0, total_pages)]; so a conversion that returns has invoked ImageMagick
    for each page of the document once, in page order, with the settings of
    the page's tier. *)
Theorem tiers_partition_pages env input_path job temp_dir (n : nat) :
  0 <= important_pages job ->
  pdf_pages env input_path = Some n ->
  let total_pages := Z.of_nat n in
  let m := Z.min (important_pages job) total_pages in
  (forall w,
     tiered_conversion env input_path job temp_dir w =
     (first_pages <~ for_each (convert_page env input_path temp_dir
                                 (first_page_dpi job) (first_page_quality job))
                       (py_range 0 m) [];
      remaining_pages <~ for_each (convert_page env input_path temp_dir
                                     (remaining_dpi job) (remaining_quality job))
                           (py_range m total_pages) [];
      ret (first_pages ++ remaining_pages)) w) /\
  py_range (important_pages job) total_pages = py_range m total_pages /\
  (forall i, i ∈ py_range 0 m <-> 0 <= i < m) /\
  (forall i, i ∈ py_range m total_pages <-> m <= i < total_pages) /\
  (forall i, i ∈ py_range 0 m -> i ∉ py_range m total_pages) /\
  py_range 0 m ++ py_range m total_pages = py_range 0 total_pages /\
  (forall w all_images w' evs,
     tiered_conversion env input_path job temp_dir w = (Ok all_images, w') ->
     trace w' = trace w ++ evs ->
     magick_calls evs = page_settings job <$> py_range 0 total_pages).
Proof.
  intros Hip Hn total_pages m.
  pose proof (remaining_tier_clamped job total_pages) as Hrem. fold m in Hrem.
  split_and!.
  - intros w. rewrite (tiered_conversion_pages _ _ _ _ _ _ Hn).
    fold total_pages. rewrite Hrem. reflexivity.
  - exact Hrem.
  - intros i. apply elem_of_py_range.
  - intros i. apply elem_of_py_range.
  - intros i. rewrite !elem_of_py_range. lia.
  - symmetry. apply py_range_split. subst m total_pages. lia.
  - intros w all_images w' evs Hrun Hevs.
    apply tiered_conversion_Ok in Hrun as (n' & Hn' & _ & _ & Ht & _).
    rewrite Hn in Hn'. injection Hn' as <-. cbv zeta in Ht.
    rewrite Ht in Hevs. apply app_inv_head in Hevs as <-.
    rewrite magick_calls_app, !magick_calls_page_events.
    apply tiers_settings; subst total_pages; lia.
Qed.

Lemma tiers_partition_pages_witness :
  let env := healthy_env 12 in
  (forall w,
     tiered_conversion env "in.pdf" default_job "/tmp/tmpk3x9" w =
     (first_pages <~ for_each (convert_page env "in.pdf" "/tmp/tmpk3x9" 200 85)
                       (py_range 0 5) [];
      remaining_pages <~ for_each (convert_page env "in.pdf" "/tmp/tmpk3x9" 35 25)
                           (py_range 5 12) [];
      ret (first_pages ++ remaining_pages)) w) /\
  magick_calls (trace (snd (tiered_conversion env "in.pdf" default_job "/tmp/tmpk3x9"
                              fresh_world)))
  = page_settings default_job <$> py_range 0 12.
Proof.
  intros env.
  destruct (tiers_partition_pages env "in.pdf" default_job "/tmp/tmpk3x9" 12)
    as (Hrun & _ & _ & _ & _ & _ & Hcalls).
  - simpl. lia.
  - reflexivity.
  - split; [exact Hrun|].
    apply (Hcalls fresh_world
             (page_image "/tmp/tmpk3x9" <$> py_range 0 12)
             (snd (tiered_conversion env "in.pdf" default_job "/tmp/tmpk3x9" fresh_world))).
    + vm_compute. reflexivity.
    + reflexivity.
Defined.
(** C5 — in [convert_pdf_to_images], when the pages before [i] have gone
    through and the ImageMagick invocation for page [i] of the requested
    range raises, the whole call ends there: the world is the one right
    after that invocation, whose trace holds the calls for the pages before
    [i] and the failed call, so no later page of the range is processed.
    What the call raises depends on the class of the failure.  A
    [SubprocessError] with text [err] (the tool exits with a non-zero
    status) becomes the [CompressionError] "Failed to convert page <i>:
    <err>".  Any other exception, such as the [FileNotFoundError] of an
    executable that cannot be started, is not caught at line 96 and leaves
    the call as it is. *)
Theorem rasterize_failure_aborts
    env input_path output_dir start_page end_page dpi quality
    (stop i : Z) (e0 : exn) w images w1 :
  resolved_end env input_path end_page = Some stop ->
  start_page <= i < stop ->
  convert_pdf_to_images env input_path output_dir start_page (Some i) dpi quality w
    = (Ok images, w1) ->
  fst (subprocess_run_magick env input_path i dpi quality (page_image output_dir i) w1)
    = Raise e0 ->
  let w2 := log (EvMagick i dpi quality (page_image output_dir i)) w1 in
  convert_pdf_to_images env input_path output_dir start_page end_page dpi quality w
    = (Raise (match e0 with
              | SubprocessError err =>
                  CompressionError ("Failed to convert page " +:+ pretty i +:+ ": " +:+ err)
              | _ => e0
              end), w2) /\
  trace w2 = trace w
    ++ flat_map (page_events output_dir dpi quality (files w1)) (py_range start_page i)
    ++ [EvMagick i dpi quality (page_image output_dir i)].
Proof.
  intros Hstop Hi Hprefix Hfail w2.
  rewrite convert_pdf_to_images_cases in Hprefix |- *.
  unfold resolved_end, pdf_pages in Hstop.
  assert (Hloop :
    for_each (convert_page env input_path output_dir dpi quality)
             (py_range start_page i) [] w = (Ok images, w1) /\
    match pdf_reader env input_path with
    | Unreadable err => (Raise (LibraryError err), w)
    | Opened pages =>
        match end_page, pages with
        | Some e, _ =>
            for_each (convert_page env input_path output_dir dpi quality)
                     (py_range start_page e) [] w
        | None, inr n =>
            for_each (convert_page env input_path output_dir dpi quality)
                     (py_range start_page (Z.of_nat n)) [] w
        | None, inl err => (Raise (LibraryError err), w)
        end
    end = for_each (convert_page env input_path output_dir dpi quality)
                   (py_range start_page stop) [] w).
  { destruct (pdf_reader env input_path) as [err|[err|n]]; [discriminate|..];
      (split; [exact Hprefix|]); destruct end_page as [e|]; simpl in Hstop;
      try discriminate; by injection Hstop as <-. }
  destruct Hloop as [Hloop ->]. clear Hprefix Hstop.
  split.
  - rewrite (py_range_split start_page i) by lia.
    rewrite (py_range_cons i) by lia.
    rewrite for_each_app, bind_run, Hloop. simpl for_each.
    rewrite bind_run, convert_page_run. cbv zeta.
    unfold subprocess_run_magick in Hfail. rewrite !bind_run in Hfail. simpl in Hfail.
    destruct (launch_failure env) as [e|] eqn:Hlaunch.
    + injection Hfail as <-. pose proof (launch_failure_class env e Hlaunch) as Hclass.
      destruct e as [msg|msg|msg|msg]; try reflexivity. by destruct (Hclass msg).
    + destruct (magick_convert env w1 input_path i dpi quality) as [[|]|err];
        try discriminate.
      by injection Hfail as <-.
  - apply convert_loop_Ok in Hloop as (_ & Ht & _); [|apply NoDup_py_range].
    subst w2. simpl. rewrite Ht, <- app_assoc. reflexivity.
Qed.

Lemma rasterize_failure_aborts_witness :
  let w1 := snd (convert_pdf_to_images failing_env "in.pdf" "/tmp/tmpk3x9" 0 (Some 2) 200 85
                   fresh_world) in
  let w2 := log (EvMagick 2 200 85 (page_image "/tmp/tmpk3x9" 2)) w1 in
  convert_pdf_to_images failing_env "in.pdf" "/tmp/tmpk3x9" 0 None 200 85 fresh_world
    = (Raise (CompressionError ("Failed to convert page " +:+ pretty 2 +:+ ": " +:+
                                "exit status 1")), w2) /\
  trace w2 = trace fresh_world
    ++ flat_map (page_events "/tmp/tmpk3x9" 200 85 (files w1)) (py_range 0 2)
    ++ [EvMagick 2 200 85 (page_image "/tmp/tmpk3x9" 2)].
Proof.
  apply (rasterize_failure_aborts failing_env "in.pdf" "/tmp/tmpk3x9" 0 None 200 85
           4 2 (SubprocessError "exit status 1") fresh_world
           ["/tmp/tmpk3x9/page_0.jpg"; "/tmp/tmpk3x9/page_1.jpg"]).
  - reflexivity.
  - simpl. lia.
  - vm_compute. reflexivity.
  - reflexivity.
Defined.

(** C5, the claim as worded: a failure of the rasterization invocation
    that is no [SubprocessError] does not give a [CompressionError].  When
    the [magick] executable cannot be started, [subprocess.run] raises a
    [FileNotFoundError]; the call of [convert_pdf_to_images] ends at the
    first page with that exception, unwrapped. *)
Lemma launch_failure_not_wrapped :
  let w := log (EvMagick 0 200 85 (page_image "/tmp/tmpk3x9" 0)) fresh_world in
  fst (subprocess_run_magick missing_magick_env "in.pdf" 0 200 85
         (page_image "/tmp/tmpk3x9" 0) fresh_world)
    = Raise (FileNotFoundError "[Errno 2] No such file or directory: 'magick'") /\
  convert_pdf_to_images missing_magick_env "in.pdf" "/tmp/tmpk3x9" 0 None 200 85 fresh_world
    = (Raise (FileNotFoundError "[Errno 2] No such file or directory: 'magick'"), w) /\
  forall msg,
    fst (convert_pdf_to_images missing_magick_env "in.pdf" "/tmp/tmpk3x9" 0 None 200 85
           fresh_world) <> Raise (CompressionError msg).
Proof.
  intros w. split_and!; [reflexivity|reflexivity|]. intros msg. discriminate.
Qed.
(** C6 — a call of [convert_pdf_to_images] that returns has, for every page
    of the range in turn, invoked ImageMagick and then, exactly when the
    page's raster file exists, recompressed that file once, at the same
    quality and with [optimize], before going to the next page; a page
    whose file is absent gives rise to no other call and no error.  The
    list returned holds the files of exactly the pages whose file exists,
    in range order, so it may be shorter than the range.  The range ends
    at [end_page] when one is given, and the number of pages is then not
    read; it ends at the number of pages otherwise.  (The files of
    the range change only at their own page, so a file exists when the call
    returns if and only if it did when its page was checked.) *)
Theorem rasterize_keeps_existing_files
    env input_path output_dir start_page end_page dpi quality w images w' :
  convert_pdf_to_images env input_path output_dir start_page end_page dpi quality w
    = (Ok images, w') ->
  exists stop : Z,
    resolved_end env input_path end_page = Some stop /\
    let pages := py_range start_page stop in
    let kept := kept_pages output_dir (files w') pages in
    images = page_image output_dir <$> kept /\
    trace w' = trace w ++ flat_map (page_events output_dir dpi quality (files w')) pages /\
    (forall i, i ∈ kept ->
       exists img, files w' !! page_image output_dir i = Some (Reencoded quality true :: img)) /\
    (forall i, i ∈ pages -> i ∉ kept -> files w' !! page_image output_dir i = None) /\
    (length images <= length pages)%nat.
Proof.
  intros Hrun.
  apply convert_pdf_to_images_range in Hrun as [(err & [=] & _)|(stop & Hstop & Hrun)].
  exists stop. split; [exact Hstop|]. cbv zeta.
  apply convert_loop_Ok in Hrun as (_ & Ht & Ha & _ & _ & Hown); [|apply NoDup_py_range].
  rewrite app_nil_l in Ha. split_and!; try done.
  - intros i Hi. destruct (Hown i Hi) as (img & Himg & _). eauto.
  - intros i Hi Hni. apply not_elem_of_dom. intros Hdom. apply Hni.
    unfold kept_pages. by apply list_elem_of_filter.
  - rewrite Ha, length_fmap. apply length_filter.
Qed.

Lemma rasterize_keeps_existing_files_witness :
  convert_pdf_to_images skipping_env "in.pdf" "/tmp/tmpk3x9" 0 None 200 85 fresh_world
  = (Ok ["/tmp/tmpk3x9/page_0.jpg"; "/tmp/tmpk3x9/page_2.jpg"],
     snd (convert_pdf_to_images skipping_env "in.pdf" "/tmp/tmpk3x9" 0 None 200 85 fresh_world)) /\
  exists stop : Z,
    resolved_end skipping_env "in.pdf" None = Some stop /\
    let w' := snd (convert_pdf_to_images skipping_env "in.pdf" "/tmp/tmpk3x9" 0 None 200 85
                     fresh_world) in
    let pages := py_range 0 stop in
    let kept := kept_pages "/tmp/tmpk3x9" (files w') pages in
    ["/tmp/tmpk3x9/page_0.jpg"; "/tmp/tmpk3x9/page_2.jpg"] = page_image "/tmp/tmpk3x9" <$> kept /\
    trace w' = trace fresh_world ++ flat_map (page_events "/tmp/tmpk3x9" 200 85 (files w')) pages /\
    (forall i, i ∈ kept ->
       exists img, files w' !! page_image "/tmp/tmpk3x9" i = Some (Reencoded 85 true :: img)) /\
    (forall i, i ∈ pages -> i ∉ kept -> files w' !! page_image "/tmp/tmpk3x9" i = None) /\
    (length ["/tmp/tmpk3x9/page_0.jpg"; "/tmp/tmpk3x9/page_2.jpg"] <= length pages)%nat.
Proof.
  assert (Hrun :
    convert_pdf_to_images skipping_env "in.pdf" "/tmp/tmpk3x9" 0 None 200 85 fresh_world
    = (Ok ["/tmp/tmpk3x9/page_0.jpg"; "/tmp/tmpk3x9/page_2.jpg"],
       snd (convert_pdf_to_images skipping_env "in.pdf" "/tmp/tmpk3x9" 0 None 200 85
              fresh_world)))
    by (vm_compute; reflexivity).
  split; [exact Hrun|].
  exact (rasterize_keeps_existing_files skipping_env "in.pdf" "/tmp/tmpk3x9" 0 None 200 85
           fresh_world _ _ Hrun).
Defined.

Lemma NoDup_kept_images output_dir f job total_pages :
  NoDup (page_image output_dir <$>
         kept_pages output_dir f (important_tier job total_pages ++ remaining_tier job total_pages)).
Proof.
  apply NoDup_fmap_2; [apply page_image_inj|].
  apply NoDup_filter, NoDup_app. split_and!; try apply NoDup_py_range.
  apply tiers_disjoint.
Qed.

Lemma extreme_loop_in_place env l :
  NoDup l -> forall acc w r w',
  for_each (extreme_step env) l acc w = (Ok r, w') ->
  forall p img, p ∈ l -> files w !! p = Some img ->
                files w' !! p = Some (Reencoded 15 true :: img).
Proof.
  induction 1 as [|x l Hx Hnd IH]; intros acc w r w' Hrun p img Hp Hfile.
  - by apply elem_of_nil in Hp.
  - simpl in Hrun. apply bind_Ok_inv in Hrun as (acc1 & w1 & Hstep & Hrest).
    apply extreme_step_Ok in Hstep as (imgx & Hfx & -> & ->).
    apply elem_of_cons in Hp as [->|Hp].
    + apply extreme_loop_Ok in Hrest as (_ & _ & _ & _ & _ & Hout).
      rewrite Hout by done. simpl. rewrite lookup_insert_eq. congruence.
    + eapply IH; eauto. simpl. rewrite lookup_insert_ne; [done|].
      intros ->. contradiction.
Qed.


(** with an [end_page] the number of pages is not asked for: the call
    returns on a document whose page tree cannot be read *)
Example explicit_end_skips_page_count :
  pdf_pages broken_pages_env "in.pdf" = None /\
  fst (convert_pdf_to_images broken_pages_env "in.pdf" "/tmp/tmpk3x9" 0 (Some 2) 200 85
         fresh_world)
  = Ok ["/tmp/tmpk3x9/page_0.jpg"; "/tmp/tmpk3x9/page_1.jpg"] /\
  fst (convert_pdf_to_images broken_pages_env "in.pdf" "/tmp/tmpk3x9" 0 None 200 85
         fresh_world)
  = Raise (LibraryError "Invalid page tree").
Proof. split_and!; reflexivity. Qed.
(** C4 — whenever [compress_pdf] returns, the size it returns is the size
    of the file then at the output path in megabytes: multiplied by
    1024 * 1024 it is the number of bytes of that file.  The flag it returns
    tells whether that size is at most [target_size_mb], in the order of the
    rational numbers for a finite target; every size is at most an infinite
    target, none is at most minus infinity, and the comparison with a NaN
    is false. *)
Theorem success_flag_matches_size env input_path output_path job w s final_size w' :
  compress_pdf env input_path output_path job w = (Ok (s, final_size), w') ->
  exists d,
    output w' = Some d /\
    (final_size * inject_Z (1024 * 1024) == inject_Z (Z.of_N (doc_bytes d)))%Q /\
    match target_size_mb job with
    | Finite t => s = true <-> (final_size <= t)%Q
    | PosInf => s = true
    | NegInf | NaN => s = false
    end.
Proof.
  intros Hrun. apply compress_pdf_Ok in Hrun as (_ & _ & w2 & Hbody & ->).
  apply compress_pdf_body_Ok in Hbody as (imgs & size1 & w1 & Hfirst & Hrest).
  apply first_pass_Ok in Hfirst as (wc & pages & bytes & _ & _ & _ & _ & Hdoc & _ & Hsize).
  assert (Hdone : exists d, output (leave_tmp env w2) = Some d /\
                            final_size = megabytes (doc_bytes d) /\
                            s = float_le final_size (target_size_mb job)).
  { destruct (float_le size1 (target_size_mb job)) eqn:Hle.
    - destruct Hrest as [[= -> ->] ->]. exists (Document pages bytes). by rewrite Hle.
    - apply extreme_pass_Ok in Hrest
        as (pages2 & bytes2 & _ & _ & _ & _ & _ & Hdoc2 & Hsize2 & Hs).
      by exists (Document pages2 bytes2). }
  destruct Hdone as (d & Hd & -> & ->). exists d. split_and!; [exact Hd|..].
  - unfold megabytes, Qdiv. rewrite <- Qmult_assoc, (Qmult_comm (/ _)), Qmult_inv_r.
    + apply Qmult_1_r.
    + discriminate.
  - unfold float_le. destruct (target_size_mb job); try reflexivity.
    apply Qle_bool_iff.
Qed.

Lemma success_flag_matches_size_witness :
  exists d,
    output (snd (compress_pdf (healthy_env 12) "in.pdf" "out.pdf" default_job fresh_world))
      = Some d /\
    (megabytes 7200000 * inject_Z (1024 * 1024) == inject_Z (Z.of_N (doc_bytes d)))%Q /\
    match target_size_mb default_job with
    | Finite t => false = true <-> (megabytes 7200000 <= t)%Q
    | PosInf => false = true
    | NegInf | NaN => false = false
    end.
Proof.
  apply (success_flag_matches_size (healthy_env 12) "in.pdf" "out.pdf" default_job fresh_world).
  vm_compute. reflexivity.
Defined.
(** C1 — when [compress_pdf] returns and the size measured after the first
    assembly fails the test [size <= target_size_mb], what happened between
    that measure and the removal of the temporary directory is exactly one
    extreme pass: one call of the image compressor at quality 15 with
    [optimize] on each image of the first-pass sequence, in order; one
    reassembly of that same sequence into the output path; one measure.
    The temporary directory holds the same files as before the pass, each
    image of the sequence re-encoded in place on top of what it held, and
    the result is the second measure with its test; nothing else is
    attempted. *)
Theorem extreme_pass_exactly_once
    env input_path output_path job w s final_size w' all_images size1 w1 :
  compress_pdf env input_path output_path job w = (Ok (s, final_size), w') ->
  first_pass env input_path output_path job (mkdtemp env) (enter_tmp env w)
    = (Ok (all_images, size1), w1) ->
  float_le size1 (target_size_mb job) = false ->
  exists w2 pages bytes,
    w' = leave_tmp env w2 /\
    trace w2 = trace w1
      ++ ((fun p => EvCompress p 15 true) <$> all_images)
      ++ [EvOpen output_path; EvConvert all_images;
          EvWrite output_path; EvGetsize output_path bytes] /\
    dom (files w2) = dom (files w1) /\
    (forall p img, p ∈ all_images -> files w1 !! p = Some img ->
                   files w2 !! p = Some (Reencoded 15 true :: img)) /\
    (forall p, p ∉ all_images -> files w2 !! p = files w1 !! p) /\
    output w2 = Some (Document pages bytes) /\
    pages.*1 = all_images /\
    final_size = megabytes bytes /\
    s = float_le final_size (target_size_mb job).
Proof.
  intros Hrun Hfirst Hover.
  apply compress_pdf_Ok in Hrun as (_ & _ & w2 & Hbody & ->).
  apply compress_pdf_body_Ok in Hbody as (imgs & sz & w1' & Hfirst' & Hrest).
  rewrite Hfirst in Hfirst'. injection Hfirst' as <- <- <-. rewrite Hover in Hrest.
  assert (Hnd : NoDup all_images).
  { apply first_pass_Ok in Hfirst as (wc & _ & _ & Htier & _).
    apply tiered_conversion_Ok in Htier as (n & _ & -> & _). apply NoDup_kept_images. }
  pose proof Hrest as Hpass.
  apply extreme_pass_Ok in Hpass
    as (pages & bytes & Hp & Ht & Hd & _ & Hout & Hdoc & Hsize & Hs).
  exists w2, pages, bytes. split_and!; try done.
  unfold extreme_pass in Hrest.
  apply bind_Ok_inv in Hrest as (imgs & w3 & Hloop & Hrest).
  apply bind_Ok_inv in Hrest as ([] & w4 & Hwrite & Hrest).
  apply bind_Ok_inv in Hrest as (b & w5 & Hsz & Hrest). injection Hrest as _ _ <-.
  destruct (assemble_measure_Ok _ _ _ _ _ _ _ Hwrite Hsz) as (_ & _ & Hf & _).
  intros p img Hin Hfile. rewrite Hf.
  eapply extreme_loop_in_place; eauto.
Qed.

Lemma extreme_pass_exactly_once_witness :
  let env := healthy_env 12 in
  let w1 := snd (first_pass env "in.pdf" "out.pdf" default_job (mkdtemp env)
                   (enter_tmp env fresh_world)) in
  let all_images := page_image (mkdtemp env) <$> py_range 0 12 in
  exists w2 pages bytes,
    snd (compress_pdf env "in.pdf" "out.pdf" default_job fresh_world) = leave_tmp env w2 /\
    trace w2 = trace w1
      ++ ((fun p => EvCompress p 15 true) <$> all_images)
      ++ [EvOpen "out.pdf"; EvConvert all_images;
          EvWrite "out.pdf"; EvGetsize "out.pdf" bytes] /\
    dom (files w2) = dom (files w1) /\
    (forall p img, p ∈ all_images -> files w1 !! p = Some img ->
                   files w2 !! p = Some (Reencoded 15 true :: img)) /\
    (forall p, p ∉ all_images -> files w2 !! p = files w1 !! p) /\
    output w2 = Some (Document pages bytes) /\
    pages.*1 = all_images /\
    megabytes 7200000 = megabytes bytes /\
    false = float_le (megabytes 7200000) (target_size_mb default_job).
Proof.
  intros env w1 all_images.
  apply (extreme_pass_exactly_once env "in.pdf" "out.pdf" default_job fresh_world
           false (megabytes 7200000) _ all_images (megabytes 40800000) w1).
  - vm_compute. reflexivity.
  - vm_compute. reflexivity.
  - reflexivity.
Defined.

(** C2 — when the size measured after the first assembly passes the test
    [size <= target_size_mb], [compress_pdf] returns [(True, size)] and the
    world it leaves is the world of that measure with the temporary
    directory removed: no extreme pass has run.  The trace of the whole run
    shows one rasterization and at most one recompression per page, one
    reassembly and one measure; every image of the sequence has been
    encoded by ImageMagick and re-encoded once, at its tier's quality, and
    the document at the output path is the one the first pass wrote. *)
Theorem under_target_no_extreme_pass
    env input_path output_path job w all_images size1 w1 :
  path_exists env input_path = true ->
  fst (check_dependencies env w) = Ok true ->
  first_pass env input_path output_path job (mkdtemp env) (enter_tmp env w)
    = (Ok (all_images, size1), w1) ->
  float_le size1 (target_size_mb job) = true ->
  compress_pdf env input_path output_path job w = (Ok (true, size1), leave_tmp env w1) /\
  exists (n : nat) pages bytes,
    pdf_pages env input_path = Some n /\
    let dir := mkdtemp env in
    let tier1 := important_tier job (Z.of_nat n) in
    let tier2 := remaining_tier job (Z.of_nat n) in
    size1 = megabytes bytes /\
    output (leave_tmp env w1) = Some (Document pages bytes) /\
    pages.*1 = all_images /\
    trace (leave_tmp env w1) = trace w
      ++ [EvMkdtemp dir]
      ++ flat_map (page_events dir (first_page_dpi job) (first_page_quality job) (files w1)) tier1
      ++ flat_map (page_events dir (remaining_dpi job) (remaining_quality job) (files w1)) tier2
      ++ [EvOpen output_path; EvConvert all_images; EvWrite output_path;
          EvGetsize output_path bytes; EvCleanup dir] /\
    all_images = page_image dir <$> kept_pages dir (files w1) (tier1 ++ tier2) /\
    (forall j, j ∈ kept_pages dir (files w1) tier1 ->
       files w1 !! page_image dir j =
       Some [Reencoded (first_page_quality job) true;
             Rasterized j (first_page_dpi job) (first_page_quality job)]) /\
    (forall j, j ∈ kept_pages dir (files w1) tier2 ->
       files w1 !! page_image dir j =
       Some [Reencoded (remaining_quality job) true;
             Rasterized j (remaining_dpi job) (remaining_quality job)]).
Proof.
  intros Hexists Hdeps Hfirst Hle. split.
  - rewrite compress_pdf_run, Hexists, Hdeps. simpl.
    unfold compress_pdf_body. rewrite bind_run, Hfirst, Hle. reflexivity.
  - apply first_pass_Ok in Hfirst
      as (wc & pages & bytes & Htier & _ & Hp & Hf & Hdoc & Ht & Hsize).
    apply tiered_conversion_Ok in Htier as (n & Hn & Ha & _ & Htc & _ & Hown).
    destruct (Hown eq_refl) as [Hown1 Hown2].
    exists n, pages, bytes. cbv zeta. rewrite Hf. split_and!; try done.
    simpl. rewrite Ht, Htc. simpl. rewrite <- !app_assoc. reflexivity.
Qed.

Lemma under_target_no_extreme_pass_witness :
  let env := healthy_env 1 in
  let job := mkJob (Finite (45 # 10)) 5 85 25 200 35 in
  let w1 := snd (first_pass env "in.pdf" "out.pdf" job (mkdtemp env)
                   (enter_tmp env fresh_world)) in
  let all_images := [page_image (mkdtemp env) 0] in
  compress_pdf env "in.pdf" "out.pdf" job fresh_world
    = (Ok (true, megabytes 3400000), leave_tmp env w1) /\
  exists (n : nat) pages bytes,
    pdf_pages env "in.pdf" = Some n /\
    let dir := mkdtemp env in
    let tier1 := important_tier job (Z.of_nat n) in
    let tier2 := remaining_tier job (Z.of_nat n) in
    megabytes 3400000 = megabytes bytes /\
    output (leave_tmp env w1) = Some (Document pages bytes) /\
    pages.*1 = all_images /\
    trace (leave_tmp env w1) = trace fresh_world
      ++ [EvMkdtemp dir]
      ++ flat_map (page_events dir (first_page_dpi job) (first_page_quality job) (files w1)) tier1
      ++ flat_map (page_events dir (remaining_dpi job) (remaining_quality job) (files w1)) tier2
      ++ [EvOpen "out.pdf"; EvConvert all_images; EvWrite "out.pdf";
          EvGetsize "out.pdf" bytes; EvCleanup dir] /\
    all_images = page_image dir <$> kept_pages dir (files w1) (tier1 ++ tier2) /\
    (forall j, j ∈ kept_pages dir (files w1) tier1 ->
       files w1 !! page_image dir j =
       Some [Reencoded (first_page_quality job) true;
             Rasterized j (first_page_dpi job) (first_page_quality job)]) /\
    (forall j, j ∈ kept_pages dir (files w1) tier2 ->
       files w1 !! page_image dir j =
       Some [Reencoded (remaining_quality job) true;
             Rasterized j (remaining_dpi job) (remaining_quality job)]).
Proof.
  intros env job w1 all_images.
  apply (under_target_no_extreme_pass env "in.pdf" "out.pdf" job fresh_world
           all_images (megabytes 3400000) w1).
  - reflexivity.
  - reflexivity.
  - vm_compute. reflexivity.
  - reflexivity.
Defined.

Lemma page_events_none_kept output_dir dpi quality (f : gmap string image) l :
  kept_pages output_dir f l = [] ->
  flat_map (page_events output_dir dpi quality f) l =
  (fun i => EvMagick i dpi quality (page_image output_dir i)) <$> l.
Proof.
  unfold kept_pages. induction l as [|i l IH]; [reflexivity|].
  rewrite filter_cons.
  destruct (decide (page_image output_dir i ∈ dom f)) as [Hin|Hnin]; [discriminate|].
  intros Hnil. simpl. rewrite IH by done.
  unfold page_events. by rewrite bool_decide_eq_false_2.
Qed.

Lemma tiered_conversion_no_pages env input_path job temp_dir w :
  pdf_pages env input_path = Some 0%nat ->
  0 <= important_pages job ->
  tiered_conversion env input_path job temp_dir w = (Ok [], w).
Proof.
  intros Hn Hip. rewrite (tiered_conversion_pages _ _ _ _ _ _ Hn).
  unfold important_tier, remaining_tier, important_range, remaining_range. simpl.
  rewrite !py_range_empty by lia. reflexivity.
Qed.
(** C7 (as the code has it) — when the two tiers together yield no image,
    [compress_pdf] raises the [CompressionError] whose message is "No
    images were created during conversion".  This happens before the
    output path is opened: the file at the output path is what it was
    before the call and the trace holds the ImageMagick invocations and
    nothing else between the creation and the removal of the temporary
    directory.  A document of zero pages is such a case whenever
    [important_pages >= 0]. *)
Theorem no_images_raises env input_path output_path job w :
  path_exists env input_path = true ->
  fst (check_dependencies env w) = Ok true ->
  (forall wc,
     tiered_conversion env input_path job (mkdtemp env) (enter_tmp env w) = (Ok [], wc) ->
     compress_pdf env input_path output_path job w
       = (Raise (CompressionError "No images were created during conversion"),
          leave_tmp env wc) /\
     output (leave_tmp env wc) = output w /\
     exists n : nat,
       pdf_pages env input_path = Some n /\
       let dir := mkdtemp env in
       trace (leave_tmp env wc) = trace w
         ++ [EvMkdtemp dir]
         ++ ((fun i => EvMagick i (first_page_dpi job) (first_page_quality job)
                         (page_image dir i)) <$> important_tier job (Z.of_nat n))
         ++ ((fun i => EvMagick i (remaining_dpi job) (remaining_quality job)
                         (page_image dir i)) <$> remaining_tier job (Z.of_nat n))
         ++ [EvCleanup dir]) /\
  (pdf_pages env input_path = Some 0%nat ->
   0 <= important_pages job ->
   compress_pdf env input_path output_path job w
     = (Raise (CompressionError "No images were created during conversion"),
        leave_tmp env (enter_tmp env w))).
Proof.
  intros Hexists Hdeps.
  assert (Hraise : forall wc,
    tiered_conversion env input_path job (mkdtemp env) (enter_tmp env w) = (Ok [], wc) ->
    compress_pdf env input_path output_path job w
      = (Raise (CompressionError "No images were created during conversion"),
         leave_tmp env wc)).
  { intros wc Htier. rewrite compress_pdf_run, Hexists, Hdeps. simpl.
    unfold compress_pdf_body, first_pass. rewrite !bind_run, Htier. reflexivity. }
  split.
  - intros wc Htier. split; [by apply Hraise|].
    apply tiered_conversion_Ok in Htier as (n & Hn & Ha & Ho & Ht & _).
    split; [exact Ho|]. exists n. split; [exact Hn|]. cbv zeta.
    symmetry in Ha. apply fmap_nil_inv in Ha.
    unfold kept_pages in Ha. rewrite filter_app in Ha.
    apply app_eq_nil in Ha as [Ha1 Ha2].
    rewrite !page_events_none_kept in Ht by done.
    simpl. rewrite Ht. simpl. rewrite <- !app_assoc. reflexivity.
  - intros Hn Hip. apply Hraise. by apply tiered_conversion_no_pages.
Qed.

Lemma no_images_raises_witness :
  let env := healthy_env 0 in
  (forall wc,
     tiered_conversion env "in.pdf" default_job (mkdtemp env) (enter_tmp env fresh_world)
       = (Ok [], wc) ->
     compress_pdf env "in.pdf" "out.pdf" default_job fresh_world
       = (Raise (CompressionError "No images were created during conversion"),
          leave_tmp env wc) /\
     output (leave_tmp env wc) = output fresh_world /\
     exists n : nat,
       pdf_pages env "in.pdf" = Some n /\
       let dir := mkdtemp env in
       trace (leave_tmp env wc) = trace fresh_world
         ++ [EvMkdtemp dir]
         ++ ((fun i => EvMagick i (first_page_dpi default_job) (first_page_quality default_job)
                         (page_image dir i)) <$> important_tier default_job (Z.of_nat n))
         ++ ((fun i => EvMagick i (remaining_dpi default_job) (remaining_quality default_job)
                         (page_image dir i)) <$> remaining_tier default_job (Z.of_nat n))
         ++ [EvCleanup dir]) /\
  (pdf_pages env "in.pdf" = Some 0%nat ->
   0 <= important_pages default_job ->
   compress_pdf env "in.pdf" "out.pdf" default_job fresh_world
     = (Raise (CompressionError "No images were created during conversion"),
        leave_tmp env (enter_tmp env fresh_world))).
Proof.
  intros env.
  apply (no_images_raises env "in.pdf" "out.pdf" default_job fresh_world); reflexivity.
Defined.

(** C7, the claim as worded: the message is not "no images were produced".
    On a document of zero pages the exception raised carries the text of
    line 164. *)
Lemma no_images_message_differs :
  fst (compress_pdf (healthy_env 0) "in.pdf" "out.pdf" default_job fresh_world)
    = Raise (CompressionError "No images were created during conversion") /\
  fst (compress_pdf (healthy_env 0) "in.pdf" "out.pdf" default_job fresh_world)
    <> Raise (CompressionError "no images were produced").
Proof.
  split.
  - vm_compute. reflexivity.
  - vm_compute. discriminate.
Qed.

(** *** Every reassembly receives the first-pass sequence *)

(** as [emits_bind_run], for a first part that is only known at [w] *)
Lemma emits_bind_at {A B} P (m : M A) (k : A -> M B) w r w' :
  bind m k w = (r, w') ->
  (forall r1 w1, m w = (r1, w1) -> exists evs, trace w1 = trace w ++ evs /\ Forall P evs) ->
  (forall a w1, m w = (Ok a, w1) -> emits P (k a)) ->
  exists evs, trace w' = trace w ++ evs /\ Forall P evs.
Proof.
  unfold bind. intros Hrun Hm Hk.
  destruct (m w) as [[a|e] w1] eqn:Hmw.
  - destruct (Hm _ _ eq_refl) as (evs1 & Ht1 & H1).
    destruct (Hk a w1 eq_refl _ _ _ Hrun) as (evs2 & Ht2 & H2).
    exists (evs1 ++ evs2). rewrite Ht2, Ht1, <- app_assoc. split; [done|].
    by apply Forall_app.
  - injection Hrun as <- <-. eauto.
Qed.

Section Order.
Context (env : Env) (input_path output_path : string) (job : Job) (w0 : World).

(** [images] is what the two conversion calls of a run started in [w0]
    return, one list after the other: the images of the pages of each tier
    whose file exists, in page order *)
Let tier_sequence (images : list string) : Prop :=
  exists (n : nat) (first_pages remaining_pages : list string) (w1 w2 : World),
    pdf_pages env input_path = Some n /\
    let dir := mkdtemp env in
    let total_pages := Z.of_nat n in
    convert_pdf_to_images env input_path dir
      0 (Some (Z.min (important_pages job) total_pages))
      (first_page_dpi job) (first_page_quality job) (enter_tmp env w0)
      = (Ok first_pages, w1) /\
    convert_pdf_to_images env input_path dir
      (important_pages job) (Some total_pages)
      (remaining_dpi job) (remaining_quality job) w1
      = (Ok remaining_pages, w2) /\
    images = first_pages ++ remaining_pages /\
    images <> [] /\
    let kept1 := kept_pages dir (files w2) (important_tier job total_pages) in
    let kept2 := kept_pages dir (files w2) (remaining_tier job total_pages) in
    first_pages = page_image dir <$> kept1 /\
    remaining_pages = page_image dir <$> kept2 /\
    StronglySorted Z.lt (kept1 ++ kept2).

(** the events allowed in a run: an [EvConvert] only with that sequence *)
Let well_ordered (e : event) : Prop :=
  forall images, e = EvConvert images -> tier_sequence images.

Lemma raster_well_ordered e : is_raster e -> well_ordered e.
Proof. intros He images ->. destruct He. Qed.

Lemma measure_well_ordered e : is_measure e -> well_ordered e.
Proof. intros He images ->. destruct He. Qed.

Lemma assembly_well_ordered images e :
  tier_sequence images ->
  is_assembly output_path images e -> well_ordered e.
Proof. intros Hord [-> | [-> | ->]] images'; [discriminate| |discriminate]. by intros [= <-]. Qed.

Lemma tiered_conversion_sequence all_images wc :
  tiered_conversion env input_path job (mkdtemp env) (enter_tmp env w0) = (Ok all_images, wc) ->
  all_images <> [] ->
  tier_sequence all_images.
Proof.
  intros Htier Hne.
  destruct (tiered_conversion_Ok _ _ _ _ _ _ _ Htier) as (n & Hn & Ha & _).
  cbv zeta in Ha. unfold kept_pages in Ha. rewrite filter_app, fmap_app in Ha.
  rewrite tiered_conversion_cases in Htier. pose proof Hn as Hn'. unfold pdf_pages in Hn'.
  destruct (pdf_reader env input_path) as [err|[err|m]]; try discriminate.
  injection Hn' as ->. cbv zeta in Htier.
  apply bind_Ok_inv in Htier as (first_pages & w1 & H1 & Htier).
  apply bind_Ok_inv in Htier as (remaining_pages & w2 & H2 & Htier).
  injection Htier as <- <-.
  exists n, first_pages, remaining_pages, w1, w2.
  assert (Hrem : remaining_pages = page_image (mkdtemp env) <$>
                   kept_pages (mkdtemp env) (files w2) (remaining_tier job (Z.of_nat n))).
  { rewrite (convert_pdf_to_images_run _ _ _ _ _ _ _ n _ Hn) in H2.
    apply convert_loop_Ok in H2 as (_ & _ & Hr & _); [|apply NoDup_py_range].
    exact Hr. }
  split; [exact Hn|]. cbv zeta. split_and!; try done; try assumption.
  - rewrite Hrem in Ha. unfold kept_pages in Ha |- *.
    by apply app_inv_tail in Ha.
  - eapply StronglySorted_sublist; [|apply tiers_sorted].
    apply sublist_app; apply kept_pages_sublist.
Qed.

Lemma emits_assemble_measure images :
  tier_sequence images ->
  forall {A} (k : N -> M A), (forall b, emits well_ordered (k b)) ->
  emits well_ordered (write_pdf env output_path images;;
                      bytes <~ os_path_getsize env output_path; k bytes).
Proof.
  intros Hord A k Hk. apply emits_bind.
  - eapply emits_weaken; [|apply emits_write_pdf]. intros e. by apply assembly_well_ordered.
  - intros _. apply emits_bind; [|done].
    eapply emits_weaken; [|apply emits_os_path_getsize]. apply measure_well_ordered.
Qed.

Lemma emits_extreme_pass all_images :
  tier_sequence all_images ->
  emits well_ordered (extreme_pass env output_path job all_images).
Proof.
  intros Hord w r w' Hrun. unfold extreme_pass in Hrun.
  eapply emits_bind_run; [exact Hrun | |].
  - eapply emits_weaken; [|apply emits_extreme_loop]. apply raster_well_ordered.
  - intros imgs w1 Hloop. apply extreme_loop_Ok in Hloop as (-> & _).
    rewrite app_nil_l. apply emits_assemble_measure; [done|].
    intros b. apply emits_ret.
Qed.

Lemma compress_pdf_body_ordered r w' :
  compress_pdf_body env input_path output_path job (mkdtemp env) (enter_tmp env w0) = (r, w') ->
  exists evs, trace w' = trace (enter_tmp env w0) ++ evs /\ Forall well_ordered evs.
Proof.
  intros Hrun. unfold compress_pdf_body in Hrun.
  eapply emits_bind_at; [exact Hrun | |].
  - clear. intros r w' Hrun. unfold first_pass in Hrun.
    eapply emits_bind_at; [exact Hrun | |].
    + eapply emits_weaken; [|apply emits_tiered_conversion]. apply raster_well_ordered.
    + intros imgs wc Htier.
      destruct imgs as [|p imgs]; [apply emits_raise|].
      apply tiered_conversion_sequence in Htier; [|done].
      apply emits_assemble_measure; [done|]. intros b. apply emits_ret.
  - intros [imgs size1] w1 Hfirst.
    apply first_pass_Ok in Hfirst as (wc & _ & _ & Htier & Hne & _).
    apply tiered_conversion_sequence in Htier; [|done].
    destruct (float_le size1 (target_size_mb job)); [apply emits_ret|].
    by apply emits_extreme_pass.
Qed.

Lemma compress_pdf_ordered r w' :
  compress_pdf env input_path output_path job w0 = (r, w') ->
  exists evs, trace w' = trace w0 ++ evs /\ Forall well_ordered evs.
Proof.
  rewrite compress_pdf_run.
  destruct (negb (path_exists env input_path)).
  { intros [= <- <-]. exists []. by rewrite app_nil_r. }
  destruct (check_dependencies env w0).1 as [[|]|e];
    try (intros [= <- <-]; exists []; by rewrite app_nil_r).
  destruct (compress_pdf_body _ _ _ _ _ _) as [r2 w2] eqn:Hbody.
  intros [= <- <-].
  destruct (compress_pdf_body_ordered _ _ Hbody) as (evs & Ht & Hall).
  exists (EvMkdtemp (mkdtemp env) :: evs ++ [EvCleanup (mkdtemp env)]).
  simpl in *. rewrite Ht, <- !app_assoc. split; [reflexivity|].
  constructor; [by intros images|]. apply Forall_app. split; [done|].
  constructor; [by intros images|constructor].
Qed.
End Order.

(** C9 — in any run of [compress_pdf], returning or raising, every sequence
    of images handed to the packer, at the first assembly and at the
    assembly of the extreme pass alike, is the same non-empty list: what
    the conversion call of the important tier returned followed by what
    the call of the remaining tier returned.  The first list holds the
    image of every important-tier page whose file exists, the second that
    of every remaining-tier page whose file exists, each in the order of
    its range, so the page indices increase strictly from one image to the
    next: the pages of the output are in the order of the input. *)
Theorem reassembly_in_page_order env input_path output_path job w r w' evs images :
  compress_pdf env input_path output_path job w = (r, w') ->
  trace w' = trace w ++ evs ->
  EvConvert images ∈ evs ->
  exists (n : nat) (first_pages remaining_pages : list string) (w1 w2 : World),
    pdf_pages env input_path = Some n /\
    let dir := mkdtemp env in
    let total_pages := Z.of_nat n in
    convert_pdf_to_images env input_path dir
      0 (Some (Z.min (important_pages job) total_pages))
      (first_page_dpi job) (first_page_quality job) (enter_tmp env w)
      = (Ok first_pages, w1) /\
    convert_pdf_to_images env input_path dir
      (important_pages job) (Some total_pages)
      (remaining_dpi job) (remaining_quality job) w1
      = (Ok remaining_pages, w2) /\
    images = first_pages ++ remaining_pages /\
    images <> [] /\
    let kept1 := kept_pages dir (files w2) (important_tier job total_pages) in
    let kept2 := kept_pages dir (files w2) (remaining_tier job total_pages) in
    first_pages = page_image dir <$> kept1 /\
    remaining_pages = page_image dir <$> kept2 /\
    StronglySorted Z.lt (kept1 ++ kept2).
Proof.
  intros Hrun Ht Hin.
  destruct (compress_pdf_ordered _ _ _ _ _ _ _ Hrun) as (evs' & Ht' & Hall).
  rewrite Ht in Ht'. apply app_inv_head in Ht' as <-.
  rewrite Forall_forall in Hall. by apply (Hall _ Hin).
Qed.

Lemma reassembly_in_page_order_witness :
  let env := healthy_env 7 in
  let run := compress_pdf env "in.pdf" "out.pdf" default_job fresh_world in
  let images := page_image (mkdtemp env) <$> py_range 0 7 in
  (trace (snd run) !! 16%nat = Some (EvConvert images) /\
   trace (snd run) !! 27%nat = Some (EvConvert images)) /\
  exists (n : nat) (first_pages remaining_pages : list string) (w1 w2 : World),
    pdf_pages env "in.pdf" = Some n /\
    let dir := mkdtemp env in
    let total_pages := Z.of_nat n in
    convert_pdf_to_images env "in.pdf" dir
      0 (Some (Z.min (important_pages default_job) total_pages))
      (first_page_dpi default_job) (first_page_quality default_job)
      (enter_tmp env fresh_world)
      = (Ok first_pages, w1) /\
    convert_pdf_to_images env "in.pdf" dir
      (important_pages default_job) (Some total_pages)
      (remaining_dpi default_job) (remaining_quality default_job) w1
      = (Ok remaining_pages, w2) /\
    images = first_pages ++ remaining_pages /\
    images <> [] /\
    let kept1 := kept_pages dir (files w2) (important_tier default_job total_pages) in
    let kept2 := kept_pages dir (files w2) (remaining_tier default_job total_pages) in
    first_pages = page_image dir <$> kept1 /\
    remaining_pages = page_image dir <$> kept2 /\
    StronglySorted Z.lt (kept1 ++ kept2).
Proof.
  intros env run images.
  assert (Hfirst : trace (snd run) !! 16%nat = Some (EvConvert images))
    by (vm_compute; reflexivity).
  assert (Hextreme : trace (snd run) !! 27%nat = Some (EvConvert images))
    by (vm_compute; reflexivity).
  split; [by split|].
  apply (reassembly_in_page_order env "in.pdf" "out.pdf" default_job fresh_world
           (fst run) (snd run) (trace (snd run)) images).
  - apply surjective_pairing.
  - reflexivity.
  - apply list_elem_of_lookup. exists 27%nat. exact Hextreme.
Defined.
(** *** A run with a negative [important_pages] *)

Lemma emits_any {A} (P : event -> Prop) (m : M A) : emits P m -> emits (fun _ => True) m.
Proof. by apply emits_weaken. Qed.

Lemma starts_bind {A B} (T : list event) (m : M A) (k : A -> M B) w r w' :
  bind m k w = (r, w') ->
  (forall r1 w1, m w = (r1, w1) -> exists evs, trace w1 = T ++ evs) ->
  (forall a, emits (fun _ => True) (k a)) ->
  exists evs, trace w' = T ++ evs.
Proof.
  unfold bind. intros Hrun Hm Hk.
  destruct (m w) as [[a|e] w1] eqn:Hmw.
  - destruct (Hm _ _ eq_refl) as (evs1 & Ht1).
    destruct (Hk a _ _ _ Hrun) as (evs2 & Ht2 & _).
    exists (evs1 ++ evs2). by rewrite Ht2, Ht1, <- app_assoc.
  - injection Hrun as <- <-. eauto.
Qed.

Section Negative.
Context (env : Env) (input_path output_path : string) (job : Job) (n : nat).
Hypothesis Hneg : important_pages job < 0.
Hypothesis Hpages : (0 < n)%nat.
Hypothesis Hn : pdf_pages env input_path = Some n.

Let first_call : event :=
  EvMagick (important_pages job) (remaining_dpi job) (remaining_quality job)
           (page_image (mkdtemp env) (important_pages job)).

Lemma convert_page_starts dpi quality images i w r w' :
  convert_page env input_path (mkdtemp env) dpi quality images i w = (r, w') ->
  exists evs, trace w' = (trace w ++ [EvMagick i dpi quality (page_image (mkdtemp env) i)]) ++ evs.
Proof.
  rewrite convert_page_run. cbv zeta.
  set (p := page_image (mkdtemp env) i).
  destruct (launch_failure env) as [e|].
  { intros [= <- <-]. exists []. by rewrite app_nil_r. }
  destruct (magick_convert env w input_path i dpi quality) as [wrote|err].
  - set (w2 := after_magick _ _ _ _ _ _).
    assert (Ht2 : trace w2 = trace w ++ [EvMagick i dpi quality p])
      by (subst w2; by destruct wrote).
    destruct (files w2 !! p) as [img|].
    + rewrite bind_run, compress_image_run. cbv zeta.
      destruct (files w2 !! p); [|intros [= <- <-]; simpl; rewrite Ht2; eauto].
      destruct (pil_save env w2 p quality true); intros [= <- <-]; simpl;
        rewrite Ht2; eauto.
    + intros [= <- <-]. rewrite Ht2. exists []. by rewrite app_nil_r.
  - intros [= <- <-]. exists []. by rewrite app_nil_r.
Qed.

Lemma tiered_conversion_starts w r w' :
  tiered_conversion env input_path job (mkdtemp env) w = (r, w') ->
  exists evs, trace w' = (trace w ++ [first_call]) ++ evs.
Proof.
  rewrite (tiered_conversion_pages _ _ _ _ _ _ Hn).
  unfold important_tier, remaining_tier, important_range, remaining_range. simpl.
  rewrite bind_run, py_range_empty by lia. simpl. intros Hrun.
  eapply starts_bind; [exact Hrun | | intros a; apply emits_ret].
  intros r1 w1. rewrite py_range_cons by lia. simpl. intros Hloop.
  eapply starts_bind; [exact Hloop | apply convert_page_starts |].
  intros a. eapply emits_any, emits_for_each. intros acc i. apply emits_convert_page.
Qed.

Lemma compress_pdf_body_starts w r w' :
  compress_pdf_body env input_path output_path job (mkdtemp env) w = (r, w') ->
  exists evs, trace w' = (trace w ++ [first_call]) ++ evs.
Proof.
  assert (Hasm : forall images {A} (k : N -> M A),
            (forall b, emits (fun _ => True) (k b)) ->
            emits (fun _ => True)
              (write_pdf env output_path images;;
               bytes <~ os_path_getsize env output_path; k bytes)).
  { intros images A k Hk. apply emits_bind; [eapply emits_any, emits_write_pdf|].
    intros _. apply emits_bind; [eapply emits_any, emits_os_path_getsize|done]. }
  unfold compress_pdf_body. intros Hrun.
  eapply starts_bind; [exact Hrun | |].
  - intros r1 w1. unfold first_pass. intros Hfirst.
    eapply starts_bind; [exact Hfirst | apply tiered_conversion_starts |].
    intros [|p imgs]; [apply emits_raise|]. apply Hasm. intros b. apply emits_ret.
  - intros [imgs size1].
    destruct (float_le size1 (target_size_mb job)); [apply emits_ret|].
    unfold extreme_pass. apply emits_bind; [eapply emits_any, emits_extreme_loop|].
    intros extreme_images. apply Hasm. intros b. apply emits_ret.
Qed.
End Negative.

(** C10 — [compress_pdf] does not check the sign of [important_pages].
    With [important_pages < 0] on a document that has pages, the important
    tier iterates over no page while the remaining tier is called with
    [start_page = important_pages] and iterates over [important_pages, ...,
    -1, 0, ..., total_pages - 1]: the two tiers no longer make up
    [0, total_pages)].  The run is not rejected: once the temporary
    directory exists, its first external call is the ImageMagick invocation
    for the negative page index [important_pages], at the remaining tier's
    settings. *)
Theorem negative_important_pages_unchecked env input_path output_path job w (n : nat) :
  important_pages job < 0 ->
  (0 < n)%nat ->
  path_exists env input_path = true ->
  fst (check_dependencies env w) = Ok true ->
  pdf_pages env input_path = Some n ->
  let ip := important_pages job in
  let total_pages := Z.of_nat n in
  important_range job total_pages = (0, ip) /\
  important_tier job total_pages = [] /\
  remaining_range job total_pages = (ip, total_pages) /\
  remaining_tier job total_pages = py_range ip 0 ++ py_range 0 total_pages /\
  (forall i, i ∈ remaining_tier job total_pages <-> ip <= i < total_pages) /\
  important_tier job total_pages ++ remaining_tier job total_pages <> py_range 0 total_pages /\
  exists evs,
    trace (snd (compress_pdf env input_path output_path job w))
    = trace w ++ EvMkdtemp (mkdtemp env)
        :: EvMagick ip (remaining_dpi job) (remaining_quality job) (page_image (mkdtemp env) ip)
        :: evs.
Proof.
  intros Hneg Hpages Hexists Hdeps Hn ip total_pages.
  assert (Himp : important_tier job total_pages = []).
  { unfold important_tier, important_range. simpl. apply py_range_empty. lia. }
  assert (Hrem : forall i, i ∈ remaining_tier job total_pages <-> ip <= i < total_pages).
  { intros i. apply elem_of_py_range. }
  split_and!.
  - unfold important_range. f_equal. lia.
  - exact Himp.
  - reflexivity.
  - apply py_range_split. lia.
  - exact Hrem.
  - rewrite Himp, app_nil_l. intros Heq.
    assert (Hin : ip ∈ py_range 0 total_pages) by (rewrite <- Heq; apply Hrem; lia).
    apply elem_of_py_range in Hin. lia.
  - rewrite compress_pdf_run, Hexists, Hdeps. simpl.
    destruct (compress_pdf_body _ _ _ _ _ _) as [r w2] eqn:Hbody.
    destruct (compress_pdf_body_starts env input_path output_path job n Hneg Hpages Hn
                _ _ _ Hbody) as (evs & Ht).
    exists (evs ++ [EvCleanup (mkdtemp env)]). simpl. rewrite Ht. simpl.
    rewrite <- !app_assoc. reflexivity.
Qed.

Lemma negative_important_pages_unchecked_witness :
  let env := healthy_env 3 in
  let job := mkJob (Finite (45 # 10)) (-2) 85 25 200 35 in
  important_range job 3 = (0, -2) /\
  important_tier job 3 = [] /\
  remaining_range job 3 = (-2, 3) /\
  remaining_tier job 3 = py_range (-2) 0 ++ py_range 0 3 /\
  (forall i, i ∈ remaining_tier job 3 <-> -2 <= i < 3) /\
  important_tier job 3 ++ remaining_tier job 3 <> py_range 0 3 /\
  exists evs,
    trace (snd (compress_pdf env "in.pdf" "out.pdf" job fresh_world))
    = trace fresh_world ++ EvMkdtemp (mkdtemp env)
        :: EvMagick (-2) 35 25 (page_image (mkdtemp env) (-2))
        :: evs.
Proof.
  intros env job.
  apply (negative_important_pages_unchecked env "in.pdf" "out.pdf" job fresh_world 3).
  - simpl. lia.
  - lia.
  - reflexivity.
  - reflexivity.
  - reflexivity.
Defined.

(** * Further properties of the code *)

(** ** File names and the image compressor *)

(** X1 — the file names of line 77 never collide: in one directory two
    different page indices, negative ones included, get different raster
    file paths, so no page overwrites the image of another. *)
Theorem page_files_never_collide output_dir (i j : Z) :
  i <> j -> page_image output_dir i <> page_image output_dir j.
Proof. intros Hne Heq. by apply page_image_inj in Heq. Qed.

Lemma page_files_never_collide_witness :
  page_image "/tmp/tmpk3x9" (-1) <> page_image "/tmp/tmpk3x9" 1.
Proof. apply page_files_never_collide. lia. Defined.

(** X2 — whatever goes wrong in [compress_image] (the file cannot be
    opened, the codec refuses it), the exception that leaves it is a
    [CompressionError] whose message is "Failed to compress image <path>: "
    followed by the text of the cause; nothing but the one call is traced
    and the file at the output path is not touched. *)
Theorem compress_image_wraps_every_error env image_path quality optimize w e w' :
  compress_image env image_path quality optimize w = (Raise e, w') ->
  (exists cause,
     e = CompressionError ("Failed to compress image " +:+ image_path +:+ ": " +:+ cause)) /\
  output w' = output w /\
  trace w' = trace w ++ [EvCompress image_path quality optimize].
Proof.
  rewrite compress_image_run. cbv zeta.
  destruct (files w !! image_path) as [img|].
  - destruct (pil_save env w image_path quality optimize) as [|err|err]; [discriminate|..];
      intros [= <- <-]; eauto.
  - intros [= <- <-]. eauto.
Qed.

Lemma compress_image_wraps_every_error_witness :
  let r := compress_image (healthy_env 1) "/tmp/tmpk3x9/page_0.jpg" 60 true fresh_world in
  (exists cause,
     compress_failure "/tmp/tmpk3x9/page_0.jpg"
       "[Errno 2] No such file or directory: '/tmp/tmpk3x9/page_0.jpg'"
     = CompressionError ("Failed to compress image " +:+ "/tmp/tmpk3x9/page_0.jpg" +:+ ": "
                         +:+ cause)) /\
  output (snd r) = output fresh_world /\
  trace (snd r) = trace fresh_world ++ [EvCompress "/tmp/tmpk3x9/page_0.jpg" 60 true].
Proof.
  intros r.
  apply (compress_image_wraps_every_error (healthy_env 1) "/tmp/tmpk3x9/page_0.jpg" 60 true
           fresh_world).
  reflexivity.
Defined.

(** X3 — a call of [compress_image] that returns has worked in place: the
    file existed before the call, it now holds one more encoding, at the
    quality and [optimize] setting asked for, on top of what it held; every
    other file is as it was, no file has appeared or disappeared and the
    file at the output path is not touched. *)
Theorem compress_image_in_place env image_path quality optimize w w' :
  compress_image env image_path quality optimize w = (Ok tt, w') ->
  exists img,
    files w !! image_path = Some img /\
    files w' !! image_path = Some (Reencoded quality optimize :: img) /\
    (forall p, p <> image_path -> files w' !! p = files w !! p) /\
    dom (files w') = dom (files w) /\
    output w' = output w /\
    trace w' = trace w ++ [EvCompress image_path quality optimize].
Proof.
  rewrite compress_image_run. cbv zeta.
  destruct (files w !! image_path) as [img|] eqn:Hfile; [|discriminate].
  destruct (pil_save env w image_path quality optimize); [|discriminate..].
  intros [= <-]. exists img. simpl. split_and!; try done.
  - by rewrite lookup_insert_eq.
  - intros p Hp. by rewrite lookup_insert_ne.
  - rewrite dom_insert_L. apply elem_of_dom_2 in Hfile. set_solver.
Qed.

Lemma compress_image_in_place_witness :
  let w := mkWorld {[ "a.jpg" := [Rasterized 0 72 60] ]} None [] in
  let w' := snd (compress_image (healthy_env 1) "a.jpg" 40 false w) in
  exists img,
    files w !! "a.jpg" = Some img /\
    files w' !! "a.jpg" = Some (Reencoded 40 false :: img) /\
    (forall p, p <> "a.jpg" -> files w' !! p = files w !! p) /\
    dom (files w') = dom (files w) /\
    output w' = output w /\
    trace w' = trace w ++ [EvCompress "a.jpg" 40 false].
Proof.
  intros w w'.
  apply (compress_image_in_place (healthy_env 1) "a.jpg" 40 false w w').
  vm_compute. reflexivity.
Defined.

(** ** The page rasterizer *)

(** X4 — an empty range is no work: when the document can be read and
    [end_page] (or, when it is not given, the number of pages) is not above
    [start_page], [convert_pdf_to_images] returns the empty list without
    invoking ImageMagick and without touching any file. *)
Theorem rasterize_empty_range
    env input_path output_dir start_page end_page dpi quality (n : nat) w :
  pdf_pages env input_path = Some n ->
  default (Z.of_nat n) end_page <= start_page ->
  convert_pdf_to_images env input_path output_dir start_page end_page dpi quality w
  = (Ok [], w).
Proof.
  intros Hn Hle. rewrite (convert_pdf_to_images_run _ _ _ _ _ _ _ n _ Hn).
  by rewrite py_range_empty.
Qed.

Lemma rasterize_empty_range_witness :
  convert_pdf_to_images (healthy_env 3) "in.pdf" "/tmp/tmpk3x9" 7 None 72 60 fresh_world
  = (Ok [], fresh_world).
Proof.
  apply (rasterize_empty_range (healthy_env 3) "in.pdf" "/tmp/tmpk3x9" 7 None 72 60 3).
  - reflexivity.
  - simpl. lia.
Defined.

(** X5 — the handler of line 96 is for the ImageMagick invocation only.
    When the pages before [i] have gone through, ImageMagick returns for
    page [i], the page's file exists and the codec then fails on it with
    text [err], be it on opening the image or on saving it, the call raises
    the compressor's own [CompressionError], "Failed to compress image
    <path>: <err>", not "Failed to convert page ...".  The call ends right
    after the failed recompression, so no later page is processed; the
    files of the other pages and the file at the output path are as they
    were.  (Nothing is said of the file of page [i] itself, which a failed
    save has overwritten.) *)
Theorem rasterize_codec_failure_aborts
    env input_path output_dir start_page end_page dpi quality
    (stop i : Z) wrote img (err : string) w images w1 :
  resolved_end env input_path end_page = Some stop ->
  start_page <= i < stop ->
  convert_pdf_to_images env input_path output_dir start_page (Some i) dpi quality w
    = (Ok images, w1) ->
  launch_failure env = None ->
  magick_convert env w1 input_path i dpi quality = Converted wrote ->
  let p := page_image output_dir i in
  let w2 := after_magick (Converted wrote) i dpi quality p w1 in
  files w2 !! p = Some img ->
  pil_save env w2 p quality true = OpenFailed err \/
  pil_save env w2 p quality true = SaveFailed err ->
  exists w',
    convert_pdf_to_images env input_path output_dir start_page end_page dpi quality w
    = (Raise (CompressionError ("Failed to compress image " +:+ p +:+ ": " +:+ err)), w') /\
    trace w' = trace w
      ++ flat_map (page_events output_dir dpi quality (files w1)) (py_range start_page i)
      ++ [EvMagick i dpi quality p; EvCompress p quality true] /\
    output w' = output w /\
    (forall p', p' <> p -> files w' !! p' = files w2 !! p').
Proof.
  intros Hstop Hi Hprefix Hlaunch Hconv p w2 Hfile Hfail.
  destruct (convert_pdf_to_images_range _ _ _ _ _ _ _ _ _ _ Hprefix)
    as [(? & [=] & _)|(? & [= <-] & Hloop)].
  assert (Hrun : forall r w',
    for_each (convert_page env input_path output_dir dpi quality)
             (py_range start_page stop) [] w = (r, w') ->
    convert_pdf_to_images env input_path output_dir start_page end_page dpi quality w
    = (r, w')).
  { intros r w' Hr. rewrite convert_pdf_to_images_cases in Hprefix |- *.
    unfold resolved_end, pdf_pages in Hstop.
    destruct (pdf_reader env input_path) as [e|[e|n]]; [discriminate|..];
      destruct end_page as [e'|]; simpl in Hstop; try discriminate;
      by injection Hstop as <-. }
  destruct (convert_loop_Ok _ _ _ _ _ _ (NoDup_py_range _ _) _ _ _ _ Hloop)
    as (Ho1 & Ht1 & _).
  assert (Ht2 : trace w2 = trace w1 ++ [EvMagick i dpi quality p])
    by (subst w2; by destruct wrote).
  assert (Ho2 : output w2 = output w1) by (subst w2; by destruct wrote).
  assert (Hpage : exists w',
    convert_page env input_path output_dir dpi quality images i w1
    = (Raise (CompressionError ("Failed to compress image " +:+ p +:+ ": " +:+ err)), w') /\
    trace w' = trace w2 ++ [EvCompress p quality true] /\
    output w' = output w2 /\
    (forall p', p' <> p -> files w' !! p' = files w2 !! p')).
  { rewrite convert_page_run, Hlaunch, Hconv. cbv zeta. fold p. fold w2. rewrite Hfile.
    rewrite bind_run, compress_image_run. cbv zeta. rewrite Hfile.
    destruct Hfail as [-> | ->]; eexists; (split; [reflexivity|]); simpl;
      split_and!; try done.
    intros p' Hp'. by rewrite lookup_insert_ne. }
  destruct Hpage as (w' & Hpage & Ht & Ho & Hf). exists w'. split_and!.
  - apply Hrun. rewrite (py_range_split start_page i stop) by lia.
    rewrite (py_range_cons i) by lia.
    rewrite for_each_app, bind_run, Hloop. simpl for_each.
    by rewrite bind_run, Hpage.
  - rewrite Ht, Ht2, Ht1, <- !app_assoc. reflexivity.
  - congruence.
  - exact Hf.
Qed.

Lemma rasterize_codec_failure_aborts_witness :
  let w1 := snd (convert_pdf_to_images codec_failure_env "in.pdf" "/tmp/tmpk3x9" 0 (Some 1)
                   200 85 fresh_world) in
  let p := page_image "/tmp/tmpk3x9" 1 in
  let w2 := after_magick (Converted true) 1 200 85 p w1 in
  exists w',
    convert_pdf_to_images codec_failure_env "in.pdf" "/tmp/tmpk3x9" 0 None 200 85 fresh_world
    = (Raise (CompressionError ("Failed to compress image " +:+ p +:+ ": " +:+
                                "cannot write mode P as JPEG")), w') /\
    trace w' = trace fresh_world
      ++ flat_map (page_events "/tmp/tmpk3x9" 200 85 (files w1)) (py_range 0 1)
      ++ [EvMagick 1 200 85 p; EvCompress p 85 true] /\
    output w' = output fresh_world /\
    (forall p', p' <> p -> files w' !! p' = files w2 !! p').
Proof.
  apply (rasterize_codec_failure_aborts codec_failure_env "in.pdf" "/tmp/tmpk3x9" 0 None
           200 85 3 1 true [Rasterized 1 200 85] "cannot write mode P as JPEG" fresh_world
           ["/tmp/tmpk3x9/page_0.jpg"]).
  - reflexivity.
  - simpl. lia.
  - vm_compute. reflexivity.
  - reflexivity.
  - reflexivity.
  - vm_compute. reflexivity.
  - right. vm_compute. reflexivity.
Defined.

Lemma bind_Raise_inv {A B} (m : M A) (k : A -> M B) w e w' :
  bind m k w = (Raise e, w') ->
  m w = (Raise e, w') \/ exists a w1, m w = (Ok a, w1) /\ k a w1 = (Raise e, w').
Proof.
  unfold bind. destruct (m w) as [[a|e1] w1]; intros H; [eauto|].
  injection H as -> ->. by left.
Qed.

Lemma convert_page_Raise env input_path output_dir dpi quality images i w e w' :
  convert_page env input_path output_dir dpi quality images i w = (Raise e, w') ->
  page_failure env output_dir i e.
Proof.
  rewrite convert_page_run. cbv zeta. unfold page_failure.
  destruct (launch_failure env) as [e0|]; [intros [= <- <-]; eauto|].
  destruct (magick_convert env w input_path i dpi quality) as [wrote|err].
  - destruct (files _ !! _) as [img|] eqn:Hfile; [|discriminate].
    rewrite bind_run, compress_image_run. cbv zeta. rewrite Hfile.
    destruct (pil_save env _ _ _ _) as [|err|err]; [discriminate|..];
      intros [= <- <-]; right; left; eauto.
  - intros [= <- <-]. left. eauto.
Qed.

Lemma convert_loop_Raise env input_path output_dir dpi quality l :
  forall acc w e w',
  for_each (convert_page env input_path output_dir dpi quality) l acc w = (Raise e, w') ->
  exists i, i ∈ l /\ page_failure env output_dir i e.
Proof.
  induction l as [|x l IH]; intros acc w e w' Hrun; [discriminate|].
  simpl in Hrun. apply bind_Raise_inv in Hrun as [Hstep|(acc1 & w1 & _ & Hrest)].
  - exists x. split; [left|]. by eapply convert_page_Raise.
  - destruct (IH _ _ _ _ Hrest) as (i & Hi & He). exists i. split; [by right|done].
Qed.

Lemma page_failure_class env output_dir i e :
  page_failure env output_dir i e -> forall msg, e <> SubprocessError msg.
Proof.
  intros [(err & ->)|[(err & ->)|Hl]] msg; try discriminate.
  by apply launch_failure_class with (msg := msg) in Hl.
Qed.

(** X6 — the exceptions of [convert_pdf_to_images].  A call that raises
    either could not read the document ([PdfReader] raised, or no
    [end_page] was given and the number of pages could not be read), in
    which case it raises the reader's error and has done nothing, or it
    fails at one page of the range it iterates over: with the
    [CompressionError] "Failed to convert page <i>: ..." when ImageMagick
    exits with an error, with "Failed to compress image <file of page i>:
    ..." when the recompression fails, or with the exception of
    [subprocess.run] itself, unwrapped, when the executable cannot be
    started.  A [SubprocessError] never gets out. *)
Theorem rasterize_exceptions
    env input_path output_dir start_page end_page dpi quality w e w' :
  convert_pdf_to_images env input_path output_dir start_page end_page dpi quality w
    = (Raise e, w') ->
  ((exists err,
      e = LibraryError err /\ w' = w /\
      (pdf_reader env input_path = Unreadable err \/
       end_page = None /\ pdf_reader env input_path = Opened (inl err))) \/
   (exists (stop i : Z),
      resolved_end env input_path end_page = Some stop /\
      start_page <= i < stop /\
      ((exists err,
          e = CompressionError ("Failed to convert page " +:+ pretty i +:+ ": " +:+ err)) \/
       (exists err,
          e = CompressionError ("Failed to compress image " +:+ page_image output_dir i
                                +:+ ": " +:+ err)) \/
       launch_failure env = Some e))) /\
  (forall msg, e <> SubprocessError msg).
Proof.
  rewrite convert_pdf_to_images_cases. unfold resolved_end, pdf_pages.
  assert (Hloop : forall stop,
    for_each (convert_page env input_path output_dir dpi quality)
             (py_range start_page stop) [] w = (Raise e, w') ->
    (exists i, start_page <= i < stop /\ page_failure env output_dir i e) /\
    (forall msg, e <> SubprocessError msg)).
  { intros stop Hrun. apply convert_loop_Raise in Hrun as (i & Hi & He).
    apply elem_of_py_range in Hi. split; [eauto|]. by eapply page_failure_class. }
  destruct (pdf_reader env input_path) as [err|[err|n]].
  - intros [= <- <-]. split; [|discriminate]. left. eauto.
  - destruct end_page as [stop|].
    + intros Hrun. destruct (Hloop _ Hrun) as [(i & Hi & He) Hclass].
      split; [|done]. right. exists stop, i. split_and!; [done|lia|lia|exact He].
    + intros [= <- <-]. split; [|discriminate]. left. exists err. auto.
  - destruct end_page as [stop|]; intros Hrun;
      destruct (Hloop _ Hrun) as [(i & Hi & He) Hclass];
      (split; [|done]); right; eexists _, i; (split_and!; [done|lia|lia|exact He]).
Qed.

Lemma rasterize_exceptions_witness :
  let r := convert_pdf_to_images failing_env "in.pdf" "/tmp/tmpk3x9" 0 None 200 85
             fresh_world in
  let e := CompressionError "Failed to convert page 2: exit status 1" in
  ((exists err,
      e = LibraryError err /\ snd r = fresh_world /\
      (pdf_reader failing_env "in.pdf" = Unreadable err \/
       @None Z = None /\ pdf_reader failing_env "in.pdf" = Opened (inl err))) \/
   (exists (stop i : Z),
      resolved_end failing_env "in.pdf" None = Some stop /\
      0 <= i < stop /\
      ((exists err,
          e = CompressionError ("Failed to convert page " +:+ pretty i +:+ ": " +:+ err)) \/
       (exists err,
          e = CompressionError ("Failed to compress image " +:+ page_image "/tmp/tmpk3x9" i
                                +:+ ": " +:+ err)) \/
       launch_failure failing_env = Some e))) /\
  (forall msg, e <> SubprocessError msg).
Proof.
  intros r e.
  apply (rasterize_exceptions failing_env "in.pdf" "/tmp/tmpk3x9" 0 None 200 85 fresh_world).
  vm_compute. reflexivity.
Defined.
(** ** The controller: what happens to the output path and the directory *)

Lemma keeps_output_ret {A} (a : A) : keeps_output (ret a).
Proof. by intros w r w' [= <- <-]. Qed.

Lemma keeps_output_raise {A} e : keeps_output (@raise A e).
Proof. by intros w r w' [= <- <-]. Qed.

Lemma keeps_output_bind {A B} (m : M A) (k : A -> M B) :
  keeps_output m -> (forall a, keeps_output (k a)) -> keeps_output (bind m k).
Proof.
  intros Hm Hk w r w'. unfold bind.
  destruct (m w) as [[a|e] w1] eqn:Hmw.
  - intros Hrun. rewrite (Hk _ _ _ _ Hrun). eauto.
  - intros [= <- <-]. eauto.
Qed.

Lemma keeps_output_for_each {A S} (body : S -> A -> M S) l :
  (forall acc x, keeps_output (body acc x)) -> forall acc, keeps_output (for_each body l acc).
Proof.
  intros Hbody. induction l as [|x l IH]; intros acc; simpl.
  - apply keeps_output_ret.
  - by apply keeps_output_bind.
Qed.

Section Output.
Context (env : Env).

Lemma keeps_output_compress_image p q o : keeps_output (compress_image env p q o).
Proof.
  intros w r w'. rewrite compress_image_run. cbv zeta.
  destruct (files w !! p); [destruct (pil_save env w p q o)|]; by intros [= <- <-].
Qed.

Lemma keeps_output_convert_page input_path output_dir dpi quality images i :
  keeps_output (convert_page env input_path output_dir dpi quality images i).
Proof.
  intros w r w'. rewrite convert_page_run. cbv zeta.
  destruct (launch_failure env); [by intros [= <- <-]|].
  destruct (magick_convert env w input_path i dpi quality) as [wrote|err].
  - destruct (files _ !! _) eqn:Hfile.
    + rewrite bind_run, compress_image_run. cbv zeta. rewrite Hfile.
      destruct (pil_save env _ _ _ _); intros [= <- <-]; by destruct wrote.
    + intros [= <- <-]; by destruct wrote.
  - by intros [= <- <-].
Qed.

Lemma keeps_output_convert_pdf_to_images input_path output_dir start_page end_page dpi quality :
  keeps_output
    (convert_pdf_to_images env input_path output_dir start_page end_page dpi quality).
Proof.
  intros w r w' Hrun.
  apply convert_pdf_to_images_range in Hrun as [(err & _ & -> & _)|(stop & _ & Hrun)];
    [reflexivity|].
  revert Hrun. apply keeps_output_for_each. intros acc i. apply keeps_output_convert_page.
Qed.

Lemma keeps_output_tiered_conversion input_path job temp_dir :
  keeps_output (tiered_conversion env input_path job temp_dir).
Proof.
  intros w r w'. rewrite tiered_conversion_cases.
  destruct (pdf_reader env input_path) as [err|[err|n]]; try by intros [= <- <-].
  cbv zeta.
  repeat (apply keeps_output_bind; [apply keeps_output_convert_pdf_to_images|]; intros ?).
  apply keeps_output_ret.
Qed.

Lemma keeps_output_extreme_loop l acc : keeps_output (for_each (extreme_step env) l acc).
Proof.
  apply keeps_output_for_each. intros a p. unfold extreme_step.
  apply keeps_output_bind; [apply keeps_output_compress_image|].
  intros _. apply keeps_output_ret.
Qed.

Lemma extreme_loop_Raise l : forall acc w e w',
  for_each (extreme_step env) l acc w = (Raise e, w') ->
  exists p cause,
    p ∈ l /\ e = CompressionError ("Failed to compress image " +:+ p +:+ ": " +:+ cause).
Proof.
  induction l as [|x l IH]; intros acc w e w' Hrun; [discriminate|].
  simpl in Hrun. apply bind_Raise_inv in Hrun as [Hstep|(acc1 & w1 & _ & Hrest)].
  - unfold extreme_step in Hstep.
    apply bind_Raise_inv in Hstep as [Hc|(? & ? & _ & Hret)]; [|discriminate].
    rewrite compress_image_run in Hc. cbv zeta in Hc.
    destruct (files w !! x); [destruct (pil_save env w x 15 true); [discriminate|..]|];
      injection Hc as <- _; eexists x, _; (split; [left|reflexivity]).
  - destruct (IH _ _ _ _ Hrest) as (p & cause & Hp & He).
    exists p, cause. split; [by right|done].
Qed.

(** what the reassembly leaves when it raises: [open] has failed and the
    file is as it was, or the packer has failed and the file is empty *)
Lemma write_pdf_Raise output_path images w e w' :
  write_pdf env output_path images w = (Raise e, w') ->
  files w' = files w /\
  match open_output env output_path with
  | Some f =>
      e = os_exn f /\ output w' = output w /\
      trace w' = trace w ++ [EvOpen output_path]
  | None =>
      (exists msg, img2pdf env (image_contents (files w) images) = inl msg /\
                   e = LibraryError msg) /\
      output w' = Some (Document [] 0) /\
      trace w' = trace w ++ [EvOpen output_path; EvConvert images]
  end.
Proof.
  rewrite write_pdf_run. cbv zeta.
  destruct (open_output env output_path) as [f|].
  - by intros [= <- <-].
  - destruct (img2pdf env _) as [msg|n] eqn:Hpack; [|discriminate].
    intros [= <- <-]. simpl. rewrite <- app_assoc. split_and!; try done. by exists msg.
Qed.

Lemma os_exn_class f msg : os_exn f <> SubprocessError msg.
Proof. by destruct f. Qed.

Lemma write_pdf_Raise_class output_path images w e w' :
  write_pdf env output_path images w = (Raise e, w') ->
  forall msg, e <> SubprocessError msg.
Proof.
  intros Hrun msg. apply write_pdf_Raise in Hrun as [_ Hrun].
  destruct (open_output env output_path) as [f|].
  - destruct Hrun as (-> & _). apply os_exn_class.
  - by destruct Hrun as ((? & _ & ->) & _).
Qed.

Lemma write_pdf_then_getsize output_path images w w1 :
  write_pdf env output_path images w = (Ok tt, w1) ->
  exists bytes w2, os_path_getsize env output_path w1 = (Ok bytes, w2).
Proof.
  rewrite write_pdf_run. cbv zeta.
  destruct (open_output env output_path); [discriminate|].
  destruct (img2pdf env _) as [msg|n]; [discriminate|].
  intros [= <-]. rewrite os_path_getsize_run. simpl. eauto.
Qed.
End Output.

Section Exits.
Context (env : Env) (input_path output_path : string) (job : Job).

Lemma emits_inside_compress_pdf_body temp_dir :
  emits inside_tmp (compress_pdf_body env input_path output_path job temp_dir).
Proof.
  assert (Hras : forall e, is_raster e -> inside_tmp e) by (by intros []).
  assert (Hmea : forall e, is_measure e -> inside_tmp e) by (by intros []).
  assert (Hasm : forall images {A} (k : N -> M A),
            (forall b, emits inside_tmp (k b)) ->
            emits inside_tmp (write_pdf env output_path images;;
                              bytes <~ os_path_getsize env output_path; k bytes)).
  { intros images A k Hk. apply emits_bind.
    - eapply emits_weaken; [|apply emits_write_pdf]. by intros e [-> | [-> | ->]].
    - intros _. apply emits_bind; [|done].
      eapply emits_weaken; [exact Hmea|apply emits_os_path_getsize]. }
  unfold compress_pdf_body. apply emits_bind.
  - unfold first_pass. apply emits_bind.
    + eapply emits_weaken; [exact Hras|apply emits_tiered_conversion].
    + intros [|p imgs]; [apply emits_raise|]. apply Hasm. intros b. apply emits_ret.
  - intros [imgs size1].
    destruct (float_le size1 (target_size_mb job)); [apply emits_ret|].
    unfold extreme_pass. apply emits_bind.
    + eapply emits_weaken; [exact Hras|apply emits_extreme_loop].
    + intros extreme_images. apply Hasm. intros b. apply emits_ret.
Qed.

Lemma convert_pdf_to_images_Raise_class output_dir start_page end_page dpi quality w e w' :
  convert_pdf_to_images env input_path output_dir start_page end_page dpi quality w
    = (Raise e, w') ->
  forall msg, e <> SubprocessError msg.
Proof.
  intros Hrun.
  apply convert_pdf_to_images_range in Hrun as [(err & [= ->] & _)|(stop & _ & Hrun)];
    [discriminate|].
  apply convert_loop_Raise in Hrun as (i & _ & He). by eapply page_failure_class.
Qed.

(** with a reader that works and an executable that starts, a conversion
    call only fails with a [CompressionError] *)
Lemma convert_pdf_to_images_Raise_pages
    output_dir start_page end_page dpi quality (n : nat) w e w' :
  launch_failure env = None ->
  pdf_pages env input_path = Some n ->
  convert_pdf_to_images env input_path output_dir start_page end_page dpi quality w
    = (Raise e, w') ->
  exists msg, e = CompressionError msg.
Proof.
  intros Hlaunch Hn. rewrite (convert_pdf_to_images_run _ _ _ _ _ _ _ n _ Hn). intros Hrun.
  apply convert_loop_Raise in Hrun as (i & _ & [[err ->]|[[err ->]|He]]); eauto.
  congruence.
Qed.

Lemma tiered_conversion_Raise_class temp_dir w e w' :
  tiered_conversion env input_path job temp_dir w = (Raise e, w') ->
  forall msg, e <> SubprocessError msg.
Proof.
  rewrite tiered_conversion_cases.
  destruct (pdf_reader env input_path) as [err|[err|n]]; try by intros [= <- <-].
  cbv zeta. intros Hrun.
  apply bind_Raise_inv in Hrun as [H1|(a1 & w2 & _ & Hrun)];
    [by eapply convert_pdf_to_images_Raise_class|].
  apply bind_Raise_inv in Hrun as [H2|(a2 & w3 & _ & Hrun)];
    [by eapply convert_pdf_to_images_Raise_class|discriminate].
Qed.

Lemma tiered_conversion_Raise_pages temp_dir (n : nat) w e w' :
  launch_failure env = None ->
  pdf_pages env input_path = Some n ->
  tiered_conversion env input_path job temp_dir w = (Raise e, w') ->
  exists msg, e = CompressionError msg.
Proof.
  intros Hlaunch Hn. rewrite tiered_conversion_cases.
  pose proof Hn as Hn'. unfold pdf_pages in Hn'.
  destruct (pdf_reader env input_path) as [err|[err|m]]; try discriminate.
  cbv zeta. intros Hrun.
  apply bind_Raise_inv in Hrun as [H1|(a1 & w2 & _ & Hrun)];
    [by eapply convert_pdf_to_images_Raise_pages|].
  apply bind_Raise_inv in Hrun as [H2|(a2 & w3 & _ & Hrun)];
    [by eapply convert_pdf_to_images_Raise_pages|discriminate].
Qed.

(** reassembly and measure never raise a [SubprocessError] *)
Lemma assemble_measure_Raise_class images {A} (k : N -> M A) w e w' :
  (write_pdf env output_path images;;
   bytes <~ os_path_getsize env output_path; k bytes) w = (Raise e, w') ->
  (forall msg, e <> SubprocessError msg) \/ exists b w1, k b w1 = (Raise e, w').
Proof.
  intros Hrun. apply bind_Raise_inv in Hrun as [Hw|([] & w1 & Hw & Hrun)].
  { left. by eapply write_pdf_Raise_class. }
  destruct (write_pdf_then_getsize _ _ _ _ _ Hw) as (bytes & w2 & Hsize).
  apply bind_Raise_inv in Hrun as [Hg|(b & w3 & _ & Hrun)]; [congruence|].
  right. eauto.
Qed.

Lemma compress_pdf_body_Raise_class temp_dir w e w' :
  compress_pdf_body env input_path output_path job temp_dir w = (Raise e, w') ->
  forall msg, e <> SubprocessError msg.
Proof.
  unfold compress_pdf_body. intros Hrun.
  apply bind_Raise_inv in Hrun as [Hfirst|([imgs size1] & w1 & _ & Hrun)].
  - unfold first_pass in Hfirst.
    apply bind_Raise_inv in Hfirst as [Htier|(imgs & wc & _ & Hrest)];
      [by eapply tiered_conversion_Raise_class|].
    destruct imgs as [|p imgs].
    + by injection Hrest as <- _.
    + apply assemble_measure_Raise_class in Hrest as [Hlib|(b & w2 & Hret)];
        [done|discriminate].
  - destruct (float_le size1 (target_size_mb job)); [discriminate|].
    unfold extreme_pass in Hrun.
    apply bind_Raise_inv in Hrun as [Hloop|(ex & w2 & _ & Hrest)].
    + by apply extreme_loop_Raise in Hloop as (p & cause & _ & ->).
    + apply assemble_measure_Raise_class in Hrest as [Hlib|(b & w3 & Hret)];
        [done|discriminate].
Qed.
End Exits.

(** X7 — the temporary directory is a scoped resource.  A run of
    [compress_pdf] that gets past its two checks (the input path exists,
    the version probe returns) creates the directory first and removes it
    last, whether it then returns or raises; in between it creates and
    removes no directory, and no temporary file is left.  A run that does
    not get past the checks raises, creates no directory and leaves the
    world as it found it. *)
Theorem temporary_directory_always_removed env input_path output_path job w r w' :
  compress_pdf env input_path output_path job w = (r, w') ->
  (path_exists env input_path = true /\ fst (check_dependencies env w) = Ok true ->
   files w' = ∅ /\
   exists evs,
     trace w' = trace w ++ [EvMkdtemp (mkdtemp env)] ++ evs ++ [EvCleanup (mkdtemp env)] /\
     Forall inside_tmp evs) /\
  (path_exists env input_path = false \/ fst (check_dependencies env w) <> Ok true ->
   w' = w /\ exists e, r = Raise e).
Proof.
  rewrite compress_pdf_run.
  destruct (path_exists env input_path); simpl.
  - destruct (check_dependencies env w).1 as [[|]|e].
    + destruct (compress_pdf_body _ _ _ _ _ _) as [r2 w2] eqn:Hbody.
      intros [= <- <-]. split; [intros _|by intros [?|?]].
      split; [reflexivity|].
      destruct (emits_inside_compress_pdf_body _ _ _ _ _ _ _ _ Hbody) as (evs & Ht & Hall).
      exists evs. split; [|done]. simpl in *. rewrite Ht. simpl.
      rewrite <- !app_assoc. reflexivity.
    + intros [= <- <-]. split; [by intros [_ ?]|eauto].
    + intros [= <- <-]. split; [by intros [_ ?]|eauto].
  - intros [= <- <-]. split; [by intros [? _]|eauto].
Qed.

Lemma temporary_directory_always_removed_witness :
  let run := compress_pdf failing_env "in.pdf" "out.pdf" default_job fresh_world in
  fst run = Raise (CompressionError "Failed to convert page 2: exit status 1") /\
  files (snd run) = ∅ /\
  exists evs,
    trace (snd run) = trace fresh_world ++ [EvMkdtemp (mkdtemp failing_env)] ++ evs
                      ++ [EvCleanup (mkdtemp failing_env)] /\
    Forall inside_tmp evs.
Proof.
  intros run. split; [reflexivity|].
  apply (temporary_directory_always_removed failing_env "in.pdf" "out.pdf" default_job
           fresh_world (fst run) (snd run)).
  - apply surjective_pairing.
  - split; reflexivity.
Defined.

(** X8 — no [SubprocessError] ever leaves [compress_pdf]: the one of the
    version probe is turned into the answer "not installed" at line 31, the
    one of a page conversion into a [CompressionError] at line 96, and no
    other step of the run starts a process. *)
Theorem compress_pdf_exceptions env input_path output_path job w e w' :
  compress_pdf env input_path output_path job w = (Raise e, w') ->
  forall msg, e <> SubprocessError msg.
Proof.
  rewrite compress_pdf_run.
  destruct (path_exists env input_path) eqn:Hexists; simpl.
  - destruct (check_dependencies env w).1 as [[|]|e1] eqn:Hdeps.
    + destruct (compress_pdf_body _ _ _ _ _ _) as [r2 w2] eqn:Hbody.
      intros [= -> <-]. by eapply compress_pdf_body_Raise_class.
    + by intros [= <- <-].
    + intros [= <- <-]. unfold check_dependencies, try_except in Hdeps.
      destruct (magick_version env) as [[]|]; simpl in Hdeps;
        try discriminate; by injection Hdeps as <-.
  - by intros [= <- <-].
Qed.

Lemma compress_pdf_exceptions_witness :
  let run := compress_pdf failing_env "in.pdf" "out.pdf" default_job fresh_world in
  fst run = Raise (CompressionError "Failed to convert page 2: exit status 1") /\
  CompressionError "Failed to convert page 2: exit status 1" <> SubprocessError "exit status 1".
Proof.
  intros run. split; [reflexivity|].
  apply (compress_pdf_exceptions failing_env "in.pdf" "out.pdf" default_job fresh_world
           (CompressionError "Failed to convert page 2: exit status 1") (snd run)).
  vm_compute. reflexivity.
Defined.

(** X9 — [check_dependencies] turns into "not installed" only the two
    classes of line 31.  When the version probe raises anything else,
    [compress_pdf] (the input path existing) lets that exception through
    unchanged instead of reporting a missing dependency, and has done
    nothing. *)
Theorem probe_error_passes_through env input_path output_path job w e :
  path_exists env input_path = true ->
  magick_version env = Some e ->
  (forall msg, e <> SubprocessError msg) ->
  (forall msg, e <> FileNotFoundError msg) ->
  compress_pdf env input_path output_path job w = (Raise e, w).
Proof.
  intros Hexists Hprobe Hsub Hfnf. rewrite compress_pdf_run, Hexists. simpl.
  unfold check_dependencies, try_except. rewrite Hprobe.
  destruct e as [msg|msg|msg|msg]; simpl; try reflexivity.
  - by destruct (Hfnf msg).
  - by destruct (Hsub msg).
Qed.

Lemma probe_error_passes_through_witness :
  compress_pdf
    (testing_env (Some (LibraryError "[Errno 13] Permission denied: 'magick'")) 3
       (fun _ => Converted true) (fun _ _ => false) true)
    "in.pdf" "out.pdf" default_job fresh_world
  = (Raise (LibraryError "[Errno 13] Permission denied: 'magick'"), fresh_world).
Proof.
  apply probe_error_passes_through; try reflexivity; discriminate.
Defined.

(** X10 — a failure while rasterizing (the document cannot be read, an
    ImageMagick invocation or a recompression fails) ends [compress_pdf]
    with that exception before the output path is opened: the file at the
    output path is what it was before the call. *)
Theorem rasterization_failure_leaves_output env input_path output_path job w e wc :
  path_exists env input_path = true ->
  fst (check_dependencies env w) = Ok true ->
  tiered_conversion env input_path job (mkdtemp env) (enter_tmp env w) = (Raise e, wc) ->
  compress_pdf env input_path output_path job w = (Raise e, leave_tmp env wc) /\
  output (leave_tmp env wc) = output w /\
  ((exists msg, e = CompressionError msg) \/ pdf_pages env input_path = None).
Proof.
  intros Hexists Hdeps Htier. split_and!.
  - rewrite compress_pdf_run, Hexists, Hdeps. simpl.
    unfold compress_pdf_body, first_pass. rewrite !bind_run, Htier. reflexivity.
  - simpl. apply (keeps_output_tiered_conversion _ _ _ _ _ _ _ Htier).
  - destruct (pdf_pages env input_path) as [n|] eqn:Hn; [left|by right].
    eapply tiered_conversion_Raise_pages; [|exact Hn|exact Htier].
    by eapply launch_after_probe.
Qed.

Lemma rasterization_failure_leaves_output_witness :
  let e := CompressionError "Failed to convert page 2: exit status 1" in
  let w := mkWorld ∅ (Some (Document [] 77)) [] in
  let wc := snd (tiered_conversion failing_env "in.pdf" default_job (mkdtemp failing_env)
                   (enter_tmp failing_env w)) in
  compress_pdf failing_env "in.pdf" "out.pdf" default_job w = (Raise e, leave_tmp failing_env wc) /\
  output (leave_tmp failing_env wc) = output w /\
  ((exists msg, e = CompressionError msg) \/ pdf_pages failing_env "in.pdf" = None).
Proof.
  intros e w wc.
  apply (rasterization_failure_leaves_output failing_env "in.pdf" "out.pdf" default_job w e wc).
  - reflexivity.
  - reflexivity.
  - vm_compute. reflexivity.
Defined.

(** X11 — the output path is opened before the packer runs (lines
    166-167).  When the first reassembly raises, [compress_pdf] ends with
    that exception.  If it is [open] that failed, the exception is its
    [OSError] and the file at the output path is what it was before the
    call; if [open] succeeded, the exception is the packer's and the file
    is left empty, whatever it held before. *)
Theorem packer_failure_truncates_output
    env input_path output_path job w all_images wc e w2 :
  path_exists env input_path = true ->
  fst (check_dependencies env w) = Ok true ->
  tiered_conversion env input_path job (mkdtemp env) (enter_tmp env w) = (Ok all_images, wc) ->
  all_images <> [] ->
  write_pdf env output_path all_images wc = (Raise e, w2) ->
  compress_pdf env input_path output_path job w = (Raise e, leave_tmp env w2) /\
  match open_output env output_path with
  | Some f =>
      e = os_exn f /\
      output (leave_tmp env w2) = output w
  | None =>
      (exists msg, img2pdf env (image_contents (files wc) all_images) = inl msg /\
                   e = LibraryError msg) /\
      output (leave_tmp env w2) = Some (Document [] 0)
  end.
Proof.
  intros Hexists Hdeps Htier Hne Hwrite. split.
  - rewrite compress_pdf_run, Hexists, Hdeps. simpl.
    unfold compress_pdf_body, first_pass. rewrite !bind_run, Htier.
    destruct all_images as [|p imgs]; [done|]. rewrite bind_run, Hwrite. reflexivity.
  - apply write_pdf_Raise in Hwrite as (_ & Hwrite).
    destruct (open_output env output_path) as [f|].
    + destruct Hwrite as (-> & Hout & _). split; [done|]. simpl. rewrite Hout.
      apply (keeps_output_tiered_conversion _ _ _ _ _ _ _ Htier).
    + by destruct Hwrite as (Hmsg & Hout & _).
Qed.

Lemma packer_failure_truncates_output_witness :
  let env := packer_failure_env in
  let w := mkWorld ∅ (Some (Document [] 77)) [] in
  let wc := snd (tiered_conversion env "in.pdf" default_job (mkdtemp env) (enter_tmp env w)) in
  let all_images := page_image (mkdtemp env) <$> py_range 0 2 in
  let w2 := snd (write_pdf env "out.pdf" all_images wc) in
  compress_pdf env "in.pdf" "out.pdf" default_job w
    = (Raise (LibraryError "cannot read input image"), leave_tmp env w2) /\
  match open_output env "out.pdf" with
  | Some f =>
      LibraryError "cannot read input image" = os_exn f /\
      output (leave_tmp env w2) = output w
  | None =>
      (exists msg, img2pdf env (image_contents (files wc) all_images) = inl msg /\
                   LibraryError "cannot read input image" = LibraryError msg) /\
      output (leave_tmp env w2) = Some (Document [] 0)
  end.
Proof.
  intros env w wc all_images w2.
  apply (packer_failure_truncates_output env "in.pdf" "out.pdf" default_job w all_images wc).
  - reflexivity.
  - reflexivity.
  - vm_compute. reflexivity.
  - discriminate.
  - vm_compute. reflexivity.
Defined.

(** when the directory of the output path does not exist, the run ends,
    after the rasterization, with the [FileNotFoundError] of [open] and
    the output path is as it was *)
Example unwritable_output_run :
  let run := compress_pdf unwritable_env "in.pdf" "missing/out.pdf" default_job fresh_world in
  fst run = Raise (FileNotFoundError
                     "[Errno 2] No such file or directory: 'missing/out.pdf'") /\
  output (snd run) = None /\
  magick_calls (trace (snd run)) = [(0, 200, 85); (1, 200, 85)].
Proof. split_and!; reflexivity. Qed.

(** X12 — when a recompression of the extreme pass fails, [compress_pdf]
    ends with the compressor's [CompressionError] about one image of the
    first-pass sequence, and the output path has not been reopened: it
    still holds the complete document of the first pass, the one whose size
    was measured above the target. *)
Theorem extreme_failure_keeps_first_document
    env input_path output_path job w all_images size1 w1 e w2 :
  path_exists env input_path = true ->
  fst (check_dependencies env w) = Ok true ->
  first_pass env input_path output_path job (mkdtemp env) (enter_tmp env w)
    = (Ok (all_images, size1), w1) ->
  float_le size1 (target_size_mb job) = false ->
  for_each (extreme_step env) all_images [] w1 = (Raise e, w2) ->
  compress_pdf env input_path output_path job w = (Raise e, leave_tmp env w2) /\
  (exists p cause,
     p ∈ all_images /\
     e = CompressionError ("Failed to compress image " +:+ p +:+ ": " +:+ cause)) /\
  exists pages bytes,
    output (leave_tmp env w2) = Some (Document pages bytes) /\
    pages.*1 = all_images /\
    size1 = megabytes bytes.
Proof.
  intros Hexists Hdeps Hfirst Hover Hloop. split_and!.
  - rewrite compress_pdf_run, Hexists, Hdeps. simpl.
    unfold compress_pdf_body. rewrite bind_run, Hfirst, Hover.
    unfold extreme_pass. rewrite bind_run, Hloop. reflexivity.
  - by eapply extreme_loop_Raise.
  - apply first_pass_Ok in Hfirst as (wc & pages & bytes & _ & _ & Hp & _ & Hdoc & _ & Hs).
    exists pages, bytes. split_and!; try done.
    simpl. rewrite <- Hdoc. apply (keeps_output_extreme_loop _ _ _ _ _ _ Hloop).
Qed.

Lemma extreme_failure_keeps_first_document_witness :
  let env := extreme_failure_env in
  let w1 := snd (first_pass env "in.pdf" "out.pdf" default_job (mkdtemp env)
                   (enter_tmp env fresh_world)) in
  let all_images := page_image (mkdtemp env) <$> py_range 0 3 in
  let e := compress_failure (page_image (mkdtemp env) 0) "cannot write mode P as JPEG" in
  let w2 := snd (for_each (extreme_step env) all_images [] w1) in
  compress_pdf env "in.pdf" "out.pdf" default_job fresh_world = (Raise e, leave_tmp env w2) /\
  (exists p cause,
     p ∈ all_images /\
     e = CompressionError ("Failed to compress image " +:+ p +:+ ": " +:+ cause)) /\
  exists pages bytes,
    output (leave_tmp env w2) = Some (Document pages bytes) /\
    pages.*1 = all_images /\
    megabytes 10200000 = megabytes bytes.
Proof.
  intros env w1 all_images e w2.
  apply (extreme_failure_keeps_first_document env "in.pdf" "out.pdf" default_job fresh_world
           all_images (megabytes 10200000) w1 e w2).
  - reflexivity.
  - reflexivity.
  - vm_compute. reflexivity.
  - reflexivity.
  - vm_compute. reflexivity.
Defined.

(** ** The controller: what a returning run has done *)

(** X13 — with [important_pages >= 0], a run of [compress_pdf] that
    returns has invoked ImageMagick exactly once for each page of the
    document, in page order and for no other index: with the important
    tier's dpi and quality for the pages below [important_pages], with the
    remaining tier's for the others.  The extreme pass adds no
    invocation. *)
Theorem every_page_rasterized_once
    env input_path output_path job w s final_size w' evs (n : nat) :
  0 <= important_pages job ->
  pdf_pages env input_path = Some n ->
  compress_pdf env input_path output_path job w = (Ok (s, final_size), w') ->
  trace w' = trace w ++ evs ->
  magick_calls evs = page_settings job <$> py_range 0 (Z.of_nat n).
Proof.
  intros Hip Hn Hrun Hevs.
  apply compress_pdf_Ok in Hrun as (_ & _ & w2 & Hbody & ->).
  apply compress_pdf_body_Ok in Hbody as (imgs & size1 & w1 & Hfirst & Hrest).
  apply first_pass_Ok in Hfirst as (wc & pages & bytes & Htier & _ & _ & Hf & _ & Ht1 & _).
  apply tiered_conversion_Ok in Htier as (n' & Hn' & _ & _ & Htc & _).
  rewrite Hn in Hn'. injection Hn' as <-. cbv zeta in Htc. rewrite <- Hf in Htc.
  change (trace (enter_tmp env w)) with (trace w ++ [EvMkdtemp (mkdtemp env)]) in Htc.
  assert (Hcalls1 : exists rest,
            trace w2 = trace w ++ [EvMkdtemp (mkdtemp env)]
              ++ flat_map (page_events (mkdtemp env) (first_page_dpi job)
                             (first_page_quality job) (files w1))
                   (important_tier job (Z.of_nat n))
              ++ flat_map (page_events (mkdtemp env) (remaining_dpi job)
                             (remaining_quality job) (files w1))
                   (remaining_tier job (Z.of_nat n))
              ++ rest /\ magick_calls rest = []).
  { set (assembly := fun b => [EvOpen output_path; EvConvert imgs; EvWrite output_path;
                                EvGetsize output_path b]) in *.
    destruct (float_le size1 (target_size_mb job)).
    - destruct Hrest as [_ ->]. exists (assembly bytes). rewrite Ht1, Htc.
      rewrite <- !app_assoc. split; reflexivity.
    - apply extreme_pass_Ok in Hrest as (? & bytes2 & _ & Ht2 & _).
      exists (assembly bytes ++ ((fun p => EvCompress p 15 true) <$> imgs) ++ assembly bytes2).
      rewrite Ht2, Ht1, Htc. rewrite <- !app_assoc. split; [reflexivity|].
      rewrite !magick_calls_app, magick_calls_recompressions. reflexivity. }
  destruct Hcalls1 as (rest & Ht & Hrestcalls).
  simpl in Hevs. rewrite Ht, <- !app_assoc in Hevs. apply app_inv_head in Hevs as <-.
  rewrite !magick_calls_app, !magick_calls_page_events, Hrestcalls.
  simpl. rewrite app_nil_r. apply tiers_settings; lia.
Qed.

Lemma every_page_rasterized_once_witness :
  let env := healthy_env 12 in
  let run := compress_pdf env "in.pdf" "out.pdf" default_job fresh_world in
  magick_calls (trace (snd run)) = page_settings default_job <$> py_range 0 (Z.of_nat 12).
Proof.
  intros env run.
  apply (every_page_rasterized_once env "in.pdf" "out.pdf" default_job fresh_world
           false (megabytes 7200000) (snd run)).
  - simpl. lia.
  - reflexivity.
  - vm_compute. reflexivity.
  - reflexivity.
Defined.

(** X14 — when the first pass returns, the files of the temporary
    directory are exactly the images of the sequence it assembled, each
    once: every image handed to the packer exists, and nothing else has
    been left in the directory. *)
Theorem assembled_images_are_the_files
    env input_path output_path job w all_images size1 w1 :
  first_pass env input_path output_path job (mkdtemp env) (enter_tmp env w)
    = (Ok (all_images, size1), w1) ->
  dom (files w1) = list_to_set all_images /\
  NoDup all_images /\
  all_images <> [].
Proof.
  intros Hfirst.
  apply first_pass_Ok in Hfirst as (wc & _ & _ & Htier & Hne & _ & Hf & _).
  apply tiered_conversion_Ok in Htier as (n & _ & Ha & _ & _ & Hd & _).
  cbv zeta in Ha, Hd. rewrite Hf. split_and!; [|rewrite Ha; apply NoDup_kept_images|done].
  rewrite Hd. simpl. set_solver.
Qed.

Lemma assembled_images_are_the_files_witness :
  let env := skipping_env in
  let r := first_pass env "in.pdf" "out.pdf" default_job (mkdtemp env)
             (enter_tmp env fresh_world) in
  let all_images := [page_image (mkdtemp env) 0; page_image (mkdtemp env) 2] in
  dom (files (snd r)) = list_to_set all_images /\
  NoDup all_images /\
  all_images <> [].
Proof.
  intros env r all_images.
  apply (assembled_images_are_the_files env "in.pdf" "out.pdf" default_job fresh_world
           all_images (megabytes 6800000) (snd r)).
  vm_compute. reflexivity.
Defined.

Lemma write_pdf_Ok_pages env output_path images w w1 :
  write_pdf env output_path images w = (Ok tt, w1) ->
  exists pages bytes,
    output w1 = Some (Document pages bytes) /\
    files w1 = files w /\
    forall p img, (p, img) ∈ pages -> p ∈ images /\ img = default [] (files w !! p).
Proof.
  rewrite write_pdf_run. cbv zeta.
  destruct (open_output env output_path); [discriminate|].
  destruct (img2pdf env _) as [msg|n]; [discriminate|].
  intros [= <-]. exists (packed_pages (files w) images), n. split_and!; try done.
  intros p img Hin. unfold packed_pages in Hin.
  apply list_elem_of_fmap in Hin as (x & [= -> ->] & Hx). done.
Qed.

Lemma os_path_getsize_Ok env output_path w bytes w' :
  os_path_getsize env output_path w = (Ok bytes, w') ->
  output w' = output w /\ files w' = files w.
Proof.
  rewrite os_path_getsize_run. destruct (output w) eqn:Hout; [|discriminate].
  intros [= <- <-]. simpl. by rewrite Hout.
Qed.

(** X15 — the encodings behind the pages of the output.  When
    [compress_pdf] returns, every page of the document at the output path
    is the image of one page of the input, rasterized by ImageMagick and
    re-encoded at its tier's quality; when the extreme pass has run, and
    only then, each page has been re-encoded a third time, at quality 15.
    A report of failure ([success = False]) always comes after the extreme
    pass. *)
Theorem output_pages_encodings env input_path output_path job w s final_size w' :
  compress_pdf env input_path output_path job w = (Ok (s, final_size), w') ->
  exists d (n : nat) (extreme : bool),
    output w' = Some d /\
    pdf_pages env input_path = Some n /\
    (s = false -> extreme = true) /\
    forall p img, (p, img) ∈ doc_pages d ->
      exists j dpi quality,
        p = page_image (mkdtemp env) j /\
        img = (if extreme then [Reencoded 15 true] else [])
              ++ [Reencoded quality true; Rasterized j dpi quality] /\
        ((j ∈ important_tier job (Z.of_nat n) /\
          dpi = first_page_dpi job /\ quality = first_page_quality job) \/
         (j ∈ remaining_tier job (Z.of_nat n) /\
          dpi = remaining_dpi job /\ quality = remaining_quality job)).
Proof.
  intros Hrun. apply compress_pdf_Ok in Hrun as (_ & _ & w2 & Hbody & ->).
  apply compress_pdf_body_Ok in Hbody as (imgs & size1 & w1 & Hfirst & Hrest).
  assert (Hnd : NoDup imgs).
  { pose proof Hfirst as H. apply first_pass_Ok in H as (wc & _ & _ & Htier & _).
    apply tiered_conversion_Ok in Htier as (n & _ & -> & _). apply NoDup_kept_images. }
  unfold first_pass in Hfirst.
  apply bind_Ok_inv in Hfirst as (imgs' & wc & Htier & Hfirst).
  destruct imgs' as [|p0 imgs']; [discriminate|].
  apply bind_Ok_inv in Hfirst as ([] & wd & Hwrite & Hfirst).
  apply bind_Ok_inv in Hfirst as (bytes & wm & Hsize & Hfirst).
  injection Hfirst as <- <- <-.
  apply tiered_conversion_Ok in Htier as (n & Hn & Ha & _ & _ & _ & Hown).
  destruct (Hown eq_refl) as [Hown1 Hown2]. clear Hown. cbv zeta in Ha.
  assert (Hcontent : forall p, p ∈ p0 :: imgs' ->
    exists j dpi quality,
      p = page_image (mkdtemp env) j /\
      files wc !! p = Some [Reencoded quality true; Rasterized j dpi quality] /\
      ((j ∈ important_tier job (Z.of_nat n) /\
        dpi = first_page_dpi job /\ quality = first_page_quality job) \/
       (j ∈ remaining_tier job (Z.of_nat n) /\
        dpi = remaining_dpi job /\ quality = remaining_quality job))).
  { intros p Hp. rewrite Ha in Hp. apply list_elem_of_fmap in Hp as (j & -> & Hj).
    unfold kept_pages in Hj. rewrite filter_app in Hj.
    apply elem_of_app in Hj as [Hj|Hj].
    - exists j, (first_page_dpi job), (first_page_quality job).
      split_and!; [done|by apply Hown1|left].
      apply list_elem_of_filter in Hj as [_ Hj]. done.
    - exists j, (remaining_dpi job), (remaining_quality job).
      split_and!; [done|by apply Hown2|right].
      apply list_elem_of_filter in Hj as [_ Hj]. done. }
  destruct (write_pdf_Ok_pages _ _ _ _ _ Hwrite) as (pages & b & Hdoc & Hfd & Hpages).
  destruct (os_path_getsize_Ok _ _ _ _ _ Hsize) as [Hom Hfm].
  destruct (float_le (megabytes bytes) (target_size_mb job)) eqn:Hle.
  - destruct Hrest as [[= -> _] ->].
    exists (Document pages b), n, false. split_and!; try done.
    + simpl. by rewrite Hom.
    + intros p img Hin. destruct (Hpages _ _ Hin) as [Hp Hfile].
      destruct (Hcontent p Hp) as (j & dpi & q & -> & Hc & Htiers).
      exists j, dpi, q. split_and!; try done. simpl. by rewrite Hfile, Hc.
  - unfold extreme_pass in Hrest.
    apply bind_Ok_inv in Hrest as (ex & w3 & Hloop & Hrest).
    apply bind_Ok_inv in Hrest as ([] & w4 & Hwrite2 & Hrest).
    apply bind_Ok_inv in Hrest as (bytes2 & w5 & Hsize2 & Hrest).
    injection Hrest as _ _ <-.
    pose proof (extreme_loop_in_place _ _ Hnd _ _ _ _ Hloop) as Hplace.
    apply extreme_loop_Ok in Hloop as (-> & _). rewrite app_nil_l in Hwrite2.
    destruct (write_pdf_Ok_pages _ _ _ _ _ Hwrite2) as (pages2 & b2 & Hdoc2 & _ & Hpages2).
    destruct (os_path_getsize_Ok _ _ _ _ _ Hsize2) as [Hom2 _].
    exists (Document pages2 b2), n, true. split_and!; try done.
    + simpl. by rewrite Hom2.
    + intros p img Hin. destruct (Hpages2 _ _ Hin) as [Hp Hfile].
      destruct (Hcontent p Hp) as (j & dpi & q & -> & Hc & Htiers).
      exists j, dpi, q. split_and!; try done. simpl.
      assert (Hwm : files wm !! page_image (mkdtemp env) j
                    = Some [Reencoded q true; Rasterized j dpi q])
        by (by rewrite Hfm, Hfd).
      by rewrite Hfile, (Hplace _ _ Hp Hwm).
Qed.

Lemma output_pages_encodings_witness :
  let env := healthy_env 12 in
  let w' := snd (compress_pdf env "in.pdf" "out.pdf" default_job fresh_world) in
  exists d (n : nat) (extreme : bool),
    output w' = Some d /\
    pdf_pages env "in.pdf" = Some n /\
    (false = false -> extreme = true) /\
    forall p img, (p, img) ∈ doc_pages d ->
      exists j dpi quality,
        p = page_image (mkdtemp env) j /\
        img = (if extreme then [Reencoded 15 true] else [])
              ++ [Reencoded quality true; Rasterized j dpi quality] /\
        ((j ∈ important_tier default_job (Z.of_nat n) /\
          dpi = first_page_dpi default_job /\ quality = first_page_quality default_job) \/
         (j ∈ remaining_tier default_job (Z.of_nat n) /\
          dpi = remaining_dpi default_job /\ quality = remaining_quality default_job)).
Proof.
  intros env w'.
  apply (output_pages_encodings env "in.pdf" "out.pdf" default_job fresh_world
           false (megabytes 7200000) w').
  vm_compute. reflexivity.
Defined.

(** ** The command line *)

Lemma compress_pdf_Ok_document env input_path output_path job w s final_size w' :
  compress_pdf env input_path output_path job w = (Ok (s, final_size), w') ->
  exists d,
    output w' = Some d /\
    s = float_le (megabytes (doc_bytes d)) (target_size_mb job).
Proof.
  intros Hrun. apply compress_pdf_Ok in Hrun as (_ & _ & w2 & Hbody & ->).
  apply compress_pdf_body_Ok in Hbody as (imgs & size1 & w1 & Hfirst & Hrest).
  apply first_pass_Ok in Hfirst as (wc & pages & bytes & _ & _ & _ & _ & Hdoc & _ & Hsize).
  destruct (float_le size1 (target_size_mb job)) eqn:Hle.
  - destruct Hrest as [[= -> ->] ->]. exists (Document pages bytes).
    split; [done|]. simpl. by rewrite <- Hsize, Hle.
  - apply extreme_pass_Ok in Hrest
      as (pages2 & bytes2 & _ & _ & _ & _ & _ & Hdoc2 & -> & ->).
    by exists (Document pages2 bytes2).
Qed.

(** X16 — the exit status of the command.  When [main] writes nothing to
    the standard error stream, the output path holds a complete document
    and the status is 0 if that document's size is within the target and 1
    if it is not.  When it writes to the standard error stream it writes
    one line, [compress_pdf] has raised, and the status is 1.  No other
    status occurs and no exception leaves [main]. *)
Theorem main_exit_status env args w ex w' :
  Main.main env args w = (ex, w') ->
  match Main.stderr ex with
  | [] =>
      exists d,
        output w' = Some d /\
        Main.status ex =
          if float_le (megabytes (doc_bytes d)) (Main.target_size args) then 0 else 1
  | line :: more =>
      more = [] /\
      Main.status ex = 1 /\
      exists e,
        compress_pdf env (Main.input_file args) (Main.output_file args) (Main.job_of args) w
        = (Raise e, w')
  end.
Proof.
  unfold Main.main.
  destruct (compress_pdf env _ _ _ w) as [[[s size]|e] w1] eqn:Hrun.
  - apply compress_pdf_Ok_document in Hrun as (d & Hdoc & Hs). simpl in Hs.
    destruct s; intros [= <- <-]; simpl; exists d; by rewrite <- Hs.
  - destruct e; intros [= <- <-]; simpl; eauto.
Qed.

Lemma main_exit_status_witness :
  let args := Main.mkArgs "in.pdf" "out.pdf" (Finite (45 # 10)) 5 85 25 200 35 in
  let r := Main.main (healthy_env 12) args fresh_world in
  match Main.stderr (fst r) with
  | [] =>
      exists d,
        output (snd r) = Some d /\
        Main.status (fst r) =
          if float_le (megabytes (doc_bytes d)) (Main.target_size args) then 0 else 1
  | line :: more =>
      more = [] /\
      Main.status (fst r) = 1 /\
      exists e,
        compress_pdf (healthy_env 12) (Main.input_file args) (Main.output_file args)
          (Main.job_of args) fresh_world
        = (Raise e, snd r)
  end.
Proof.
  intros args r.
  apply (main_exit_status (healthy_env 12) args fresh_world (fst r) (snd r)).
  apply surjective_pairing.
Defined.

(** X17 — what the user sees when a check fails.  If the input file does
    not exist, [main] writes "Error: Input file not found: <path>" to the
    standard error stream; if it exists and ImageMagick is reported absent,
    it writes "Compression Error: ImageMagick is not installed. Please
    install it first."  Either way the status is 1 and nothing has been
    created or written. *)
Theorem main_reports_failed_checks env args w :
  path_exists env (Main.input_file args) = false \/
  fst (check_dependencies env w) = Ok false ->
  Main.main env args w =
  (Main.mkExit 1
     [if path_exists env (Main.input_file args)
      then "Compression Error: ImageMagick is not installed. Please install it first."
      else "Error: Input file not found: " +:+ Main.input_file args],
   w).
Proof.
  unfold Main.main. rewrite compress_pdf_run. intros [Hmissing|Hdeps].
  - by rewrite Hmissing.
  - destruct (path_exists env (Main.input_file args)); [|reflexivity]. simpl.
    by rewrite Hdeps.
Qed.

Lemma main_reports_failed_checks_witness :
  let args := Main.mkArgs "in.pdf" "out.pdf" (Finite (45 # 10)) 5 85 25 200 35 in
  Main.main (sample_env false None 3 (fun _ => Converted true)) args fresh_world
  = (Main.mkExit 1 ["Error: Input file not found: in.pdf"], fresh_world) /\
  Main.main (sample_env true (Some (SubprocessError "exit status 127")) 3
               (fun _ => Converted true)) args fresh_world
  = (Main.mkExit 1
       ["Compression Error: ImageMagick is not installed. Please install it first."],
     fresh_world).
Proof.
  intros args. split.
  - apply (main_reports_failed_checks (sample_env false None 3 (fun _ => Converted true)) args).
    left. reflexivity.
  - apply (main_reports_failed_checks
             (sample_env true (Some (SubprocessError "exit status 127")) 3
                (fun _ => Converted true)) args).
    right. reflexivity.
Defined.
